(** * Verification of the pull-request review pipeline

    A shallow embedding of the Python sources under [app/]:
    - [app/services/github_service.py]  (module [GitHubService])
    - [app/agents/tools.py]             (modules [CodeAnalysisTool], [GitHubPRTool])
    - [app/agents/code_review_agent.py] (module [CodeReviewAgent])
    - [app/tasks.py]                    (module [Tasks])
    - [app/main.py], [app/models.py]    (module [Main])

    Python [str] values are modelled by [string]; the characters the rules
    look at (digits, blanks, letters, punctuation) are ASCII, and a character
    above 127 is an opaque symbol that is neither a digit, a blank nor a
    letter.  Python [int] is [Z].  A [dict] with string keys is a
    [gmap string _]; a Python list is a [list]. *)

From Stdlib Require Import ZArith Ascii String List Lia Bool.
From Stdlib Require Import Numbers.DecimalString.
From stdpp Require Import base option list gmap strings.

Local Open Scope string_scope.
Local Open Scope list_scope.
Local Open Scope Z_scope.

(** ** Python string primitives *)

Module PyStr.

(** [s.split(sep)] for a one-character separator: never empty. *)
Fixpoint split (sep : ascii) (s : string) : list string :=
  match s with
  | EmptyString => [EmptyString]
  | String c s' =>
      if Ascii.eqb c sep then EmptyString :: split sep s'
      else match split sep s' with
           | h :: t => String c h :: t
           | [] => [String c EmptyString]
           end
  end.

Definition newline : ascii := ascii_of_nat 10.
Definition tab : ascii := ascii_of_nat 9.
Definition dquote : ascii := ascii_of_nat 34.

(** a text made of lines joined by the newline *)
Fixpoint unlines (ls : list string) : string :=
  match ls with
  | [] => EmptyString
  | [l] => l
  | l :: rest => l +:+ String newline (unlines rest)
  end.

(** [s.startswith(p)] *)
Definition startswith (p s : string) : bool := String.prefix p s.

(** [sub in s] *)
Fixpoint contains (sub s : string) : bool :=
  String.prefix sub s ||
  match s with
  | EmptyString => false
  | String _ s' => contains sub s'
  end.

(** [s.endswith(suf)] *)
Definition endswith (suf s : string) : bool :=
  let n := String.length s in
  let k := String.length suf in
  (k <=? n)%nat && String.eqb (String.substring (n - k) k s) suf.

Definition lower_char (c : ascii) : ascii :=
  let n := nat_of_ascii c in
  if ((65 <=? n) && (n <=? 90))%nat then ascii_of_nat (n + 32) else c.

Definition upper_char (c : ascii) : ascii :=
  let n := nat_of_ascii c in
  if ((97 <=? n) && (n <=? 122))%nat then ascii_of_nat (n - 32) else c.

Fixpoint map_chars (f : ascii -> ascii) (s : string) : string :=
  match s with
  | EmptyString => EmptyString
  | String c s' => String (f c) (map_chars f s')
  end.

(** [s.lower()] and [s.upper()] *)
Definition lower : string -> string := map_chars lower_char.
Definition upper : string -> string := map_chars upper_char.

(** the class [\d] *)
Definition is_digit (c : ascii) : bool :=
  let n := nat_of_ascii c in ((48 <=? n) && (n <=? 57))%nat.

(** the class [\s]: blank, [\t \n \v \f \r] and the separators 28..31 *)
Definition is_space (c : ascii) : bool :=
  let n := nat_of_ascii c in
  (n =? 32)%nat || ((9 <=? n) && (n <=? 13))%nat || ((28 <=? n) && (n <=? 31))%nat.

(** the class [\w] *)
Definition is_word (c : ascii) : bool :=
  let n := nat_of_ascii c in
  is_digit c || ((65 <=? n) && (n <=? 90))%nat
  || ((97 <=? n) && (n <=? 122))%nat || (n =? 95)%nat.

(** longest prefix of characters in a class, and the rest *)
Fixpoint span (p : ascii -> bool) (s : string) : string * string :=
  match s with
  | EmptyString => (EmptyString, EmptyString)
  | String c s' =>
      if p c then let '(a, b) := span p s' in (String c a, b)
      else (EmptyString, s)
  end.

Definition digit_val (c : ascii) : Z := Z.of_nat (nat_of_ascii c) - 48.

Fixpoint int_acc (acc : Z) (s : string) : Z :=
  match s with
  | EmptyString => acc
  | String c s' => int_acc (10 * acc + digit_val c) s'
  end.

(** [int(s)] on a string of decimal digits *)
Definition int (s : string) : Z := int_acc 0 s.

(** [str(n)] for a length *)
Definition str_of_nat (n : nat) : string :=
  NilZero.string_of_uint (Nat.to_uint n).

(** truthiness of a [str] *)
Definition truthy (s : string) : bool :=
  match s with EmptyString => false | _ => true end.

End PyStr.

(** ** Exceptions and computations that may raise *)

(** A Python exception: its class name and [str(e)]. *)
Record exn := Exn { exn_class : string; exn_str : string }.

Definition res (A : Type) : Type := exn + A.

Definition rbind {A B} (m : res A) (k : A -> res B) : res B :=
  match m with
  | inl e => inl e
  | inr a => k a
  end.

Declare Scope res_scope.
Delimit Scope res_scope with res.
Notation "x <-? m ; k" := (rbind m (fun x => k))
  (at level 100, m at next level, right associativity) : res_scope.

(** [for x in xs: acc = body(acc, x)], stopping at the first exception. *)
Fixpoint for_each {A B} (body : B -> A -> res B) (xs : list A) (acc : B) : res B :=
  match xs with
  | [] => inr acc
  | x :: rest => rbind (body acc x) (for_each body rest)
  end.

(** Computations over a state [S] that may raise: the state at the raise
    is kept, as a handler sees every effect made before the exception. *)
Definition M (S A : Type) : Type := S -> S * res A.

Definition ret {S A} (a : A) : M S A := fun s => (s, inr a).
Definition raise {S A} (e : exn) : M S A := fun s => (s, inl e).
Definition lift {S A} (r : res A) : M S A := fun s => (s, r).

Definition bind {S A B} (m : M S A) (k : A -> M S B) : M S B :=
  fun s =>
    match m s with
    | (s', inl e) => (s', inl e)
    | (s', inr a) => k a s'
    end.

(** [try: m except Exception as e: h(e)] *)
Definition try_except {S A} (m : M S A) (h : exn -> M S A) : M S A :=
  fun s =>
    match m s with
    | (s', inl e) => h e s'
    | (s', inr a) => (s', inr a)
    end.

Declare Scope M_scope.
Delimit Scope M_scope with M.
Notation "x <- m ;; k" := (bind m (fun x => k))
  (at level 100, m at next level, right associativity) : M_scope.
Notation "m ;;; k" := (bind m (fun _ => k))
  (at level 100, right associativity) : M_scope.

(** [for x in xs: acc = body(acc, x)] with effects. *)
Fixpoint mfor {S A B} (body : B -> A -> M S B) (xs : list A) (acc : B) : M S B :=
  match xs with
  | [] => ret acc
  | x :: rest => bind (body acc x) (mfor body rest)
  end.

(** [l[i]] on a Python list: a negative index counts from the end, and an
    index outside [-len, len) raises [IndexError]. *)
Definition py_index {A} (l : list A) (i : Z) : res A :=
  let n := Z.of_nat (length l) in
  let j := if i <? 0 then i + n else i in
  if (0 <=? j) && (j <? n) then
    match l !! Z.to_nat j with
    | Some x => inr x
    | None => inl (Exn "IndexError" "list index out of range")
    end
  else inl (Exn "IndexError" "list index out of range").

(** ** app/services/github_service.py *)

Module GitHubService.
Import PyStr.

(** [re.search(r'b/(.+)$', line)]: group 1 of the leftmost match.  The
    lines come from a split on the newline, so [.] matches each of their
    characters and [$] is the end of the line. *)
Fixpoint search_b_path (line : string) : option string :=
  match line with
  | EmptyString => None
  | String c rest =>
      match rest with
      | String c' (String _ _ as path) =>
          if Ascii.eqb c "b" && Ascii.eqb c' "/" then Some path
          else search_b_path rest
      | _ => None
      end
  end.

(** [re.search(r'\+(\d+),?(\d+)?', line)]: groups 1 and 2 of the leftmost
    match; group 2 is [None] when it took part in no match. *)
Fixpoint search_hunk (line : string) : option (string * option string) :=
  match line with
  | EmptyString => None
  | String c rest =>
      if Ascii.eqb c "+" then
        match span is_digit rest with
        | (EmptyString, _) => search_hunk rest
        | (g1, String d after) =>
            if Ascii.eqb d "," then
              match span is_digit after with
              | (EmptyString, _) => Some (g1, None)
              | (g2, _) => Some (g1, Some g2)
              end
            else Some (g1, None)
        | (g1, EmptyString) => Some (g1, None)
        end
      else search_hunk rest
  end.

(** The loop state: the dict under construction and the file cursor. *)
Record st := St {
  changed_lines : gmap string (list Z);
  current_file : option string
}.

Definition cursor_set (f : option string) : bool :=
  match f with Some p => truthy p | None => false end.

(** [int(match.group(2)) if match.group(2) else 1] *)
Definition hunk_count (g2 : option string) : Z :=
  match g2 with
  | Some d => if truthy d then int d else 1
  | None => 1
  end.

(** The lines the loop looks at: file headers and hunk headers. *)
Definition is_header (line : string) : bool :=
  startswith "diff --git" line || startswith "@@" line.

(** One iteration of [for line in diff_content.split('\n')]. *)
Definition step (s : st) (line : string) : st :=
  if startswith "diff --git" line then
    match search_b_path line with
    | Some p => St (<[p := []]> (changed_lines s)) (Some p)
    | None => s
    end
  else if startswith "@@" line && cursor_set (current_file s) then
    match search_hunk line, current_file s with
    | Some (g1, g2), Some f =>
        let start_line := int g1 in
        let line_count := hunk_count g2 in
        St (alter (fun l => l ++ seqZ start_line line_count) f (changed_lines s))
           (current_file s)
    | _, _ => s
    end
  else s.

(** While a file is current it is a non-empty path with an entry. *)
Definition cursor_ok (s : st) : Prop :=
  forall f, current_file s = Some f ->
    truthy f = true /\ is_Some (changed_lines s !! f).

Definition parse_lines (ls : list string) : st :=
  fold_left step ls (St ∅ None).

Definition parse_diff_for_changed_lines (diff_content : string)
  : gmap string (list Z) :=
  changed_lines (parse_lines (split newline diff_content)).

Definition scenario_A : string :=
  unlines
    [ "diff --git a/test.py b/test.py";
      "@@ -1,3 +1,4 @@";
      " def hello():";
      "+    print(" +:+ String dquote ("Hello" +:+ String dquote ")");
      "     return " +:+ String dquote ("world" +:+ String dquote "") ].

End GitHubService.

(** ** app/agents/tools.py: the line analyzer *)

Module CodeAnalysisTool.
Import PyStr.

(** The issue dicts built by the checks. *)
Record issue := Issue {
  issue_type : string;
  issue_line : Z;
  description : string;
  suggestion : string;
  severity : string
}.

(** [re.search(r',[^\s\]]', line)] *)
Fixpoint search_comma (line : string) : bool :=
  match line with
  | String c (String d _ as rest) =>
      (Ascii.eqb c "," && negb (is_space d) && negb (Ascii.eqb d "]"))
      || search_comma rest
  | _ => false
  end.

Definition skip_spaces (s : string) : string := snd (span is_space s).

Definition drop (n : nat) (s : string) : string :=
  String.substring n (String.length s - n) s.

(** [re.match(r'\s*except\s*:', line)] *)
Definition match_bare_except (line : string) : bool :=
  let r := skip_spaces line in
  String.prefix "except" r && String.prefix ":" (skip_spaces (drop 6 r)).

(** [re.search(r'\bprint\s*\(', line)]; [prev_word] tells whether the
    character before the current position is a word character. *)
Fixpoint search_print_from (prev_word : bool) (line : string) : bool :=
  match line with
  | EmptyString => false
  | String c rest =>
      (negb prev_word && String.prefix "print" line
       && String.prefix "(" (skip_spaces (drop 5 line)))
      || search_print_from (is_word c) rest
  end.

Definition search_print : string -> bool := search_print_from false.

Definition _check_style_issues (line : string) (line_num : Z)
    (file_extension : string) : list issue :=
  let issues := [] in
  let issues :=
    if (120 <? String.length line)%nat then
      issues ++ [Issue "style" line_num
                   ("Line too long (" +:+ str_of_nat (String.length line)
                      +:+ " characters)")
                   "Break line into multiple lines or refactor" "low"]
    else issues in
  let issues :=
    if endswith " " line || endswith (String tab "") line then
      issues ++ [Issue "style" line_num "Trailing whitespace"
                   "Remove trailing whitespace" "low"]
    else issues in
  let issues :=
    if String.eqb file_extension "py" then
      if search_comma line then
        issues ++ [Issue "style" line_num "Missing space after comma"
                     "Add space after comma" "low"]
      else issues
    else issues in
  issues.

Definition _check_potential_bugs (line : string) (line_num : Z)
    (file_extension : string) : list issue :=
  let issues := [] in
  if String.eqb file_extension "py" then
    let issues :=
      if negb (contains "is None" line)
         && (contains "== None" line || contains "!= None" line) then
        issues ++ [Issue "bug" line_num "Use 'is None' instead of '== None'"
                     "Replace '== None' with 'is None'" "medium"]
      else issues in
    let issues :=
      if match_bare_except line then
        issues ++ [Issue "bug" line_num "Bare except clause"
                     "Specify exception type or use 'except Exception:'" "high"]
      else issues in
    issues
  else issues.

Definition _check_performance_issues (line : string) (line_num : Z)
    (file_extension : string) : list issue :=
  let issues := [] in
  if String.eqb file_extension "py" then
    if contains "+=" line && contains "str" (lower line) then
      issues ++ [Issue "performance" line_num
                   "Potential inefficient string concatenation"
                   "Consider using join() or f-strings for better performance"
                   "medium"]
    else issues
  else issues.

Definition _check_best_practices (line : string) (line_num : Z)
    (file_extension : string) : list issue :=
  let issues := [] in
  if String.eqb file_extension "py" then
    let issues :=
      if contains "TODO" (upper line) then
        issues ++ [Issue "best_practice" line_num "TODO comment found"
                     "Consider creating a ticket or implementing the TODO" "low"]
      else issues in
    let issues :=
      if search_print line then
        issues ++ [Issue "best_practice" line_num "Print statement found"
                     "Consider using logging instead of print statements" "low"]
      else issues in
    issues
  else issues.

(** The four [issues.extend(...)] of one loop iteration. *)
Definition check_line (line : string) (line_num : Z) (ext : string) : list issue :=
  _check_style_issues line line_num ext
  ++ _check_potential_bugs line line_num ext
  ++ _check_performance_issues line line_num ext
  ++ _check_best_practices line line_num ext.

(** The body of [for line_num in lines_to_analyze]. *)
Definition run_body (lines : list string) (ext : string)
    (issues : list issue) (line_num : Z) : res (list issue) :=
  if line_num <=? Z.of_nat (length lines) then
    (line <-? py_index lines (line_num - 1);
     inr (issues ++ check_line line line_num ext))%res
  else inr issues.

Definition file_extension_of (file_name : string) : string :=
  lower (List.last (split "." file_name) EmptyString).

(** [changed_lines if changed_lines else range(1, len(lines) + 1)]: both
    [None] and the empty list are falsy. *)
Definition lines_to_analyze (changed_lines : option (list Z)) (lines : list string)
  : list Z :=
  match changed_lines with
  | Some (n :: l) => n :: l
  | _ => seqZ 1 (Z.of_nat (length lines))
  end.

Record run_result := RunResult {
  file_name : string;
  issues : list issue;
  total_lines : Z;
  analyzed_lines : Z
}.

Definition _run (file_content file_name : string)
    (changed_lines : option (list Z)) : res run_result :=
  let lines := split newline file_content in
  let file_extension := file_extension_of file_name in
  let to_analyze := lines_to_analyze changed_lines lines in
  (issues <-? for_each (run_body lines file_extension) to_analyze [];
   inr (RunResult file_name issues (Z.of_nat (length lines))
          (Z.of_nat (length to_analyze))))%res.

Definition scenario_B : string :=
  unlines ["if x == None:"; "    return x"].

End CodeAnalysisTool.

(** ** The line analyzer on shared list objects

    [_run] receives [changed_lines] by reference: the list belongs to the
    caller (an entry of the [changed_lines] dict of the fetched data).  Here
    the same function is read with that list in a store of list objects, to
    see what it does to the object it is handed. *)

Module SharedLists.
Import PyStr CodeAnalysisTool.

(** The list objects reachable from the caller, by address. *)
Definition store := gmap nat (list Z).

(** Reading the list at an address. *)
Definition load (r : nat) : M store (list Z) :=
  fun h => (h, inr (default [] (h !! r))).

(** [changed_lines if changed_lines else range(1, len(lines) + 1)] on a
    reference ([None] is the default argument). *)
Definition lines_to_analyze_ref (changed_lines : option nat) (lines : list string)
  : M store (list Z) :=
  match changed_lines with
  | None => ret (seqZ 1 (Z.of_nat (length lines)))
  | Some r =>
      (l <- load r ;;
       match l with
       | [] => ret (seqZ 1 (Z.of_nat (length lines)))
       | _ => load r
       end)%M
  end.

Definition _run_ref (file_content file_name : string)
    (changed_lines : option nat) : M store run_result :=
  let lines := split newline file_content in
  let file_extension := file_extension_of file_name in
  (to_analyze <- lines_to_analyze_ref changed_lines lines ;;
   issues <- mfor (fun issues line_num =>
                     lift (run_body lines file_extension issues line_num))
               to_analyze [] ;;
   ret (RunResult file_name issues (Z.of_nat (length lines))
          (Z.of_nat (length to_analyze))))%M.

(** The value of the argument as the callee sees it. *)
Definition deref (h : store) (changed_lines : option nat) : option (list Z) :=
  match changed_lines with
  | None => None
  | Some r => Some (default [] (h !! r))
  end.

End SharedLists.

(** ** app/models.py *)

Module Models.

Inductive TaskStatus := PENDING | PROCESSING | COMPLETED | FAILED.

Inductive IssueType := STYLE | BUG | PERFORMANCE | BEST_PRACTICE | SECURITY.

(** Validation of a [str] against the values of [IssueType]. *)
Definition IssueType_of (s : string) : res IssueType :=
  if String.eqb s "style" then inr STYLE
  else if String.eqb s "bug" then inr BUG
  else if String.eqb s "performance" then inr PERFORMANCE
  else if String.eqb s "best_practice" then inr BEST_PRACTICE
  else if String.eqb s "security" then inr SECURITY
  else inl (Exn "ValidationError" "1 validation error for CodeIssue").

Record CodeIssue := MkCodeIssue {
  ci_type : IssueType;
  ci_line : Z;
  ci_description : string;
  ci_suggestion : string;
  ci_severity : string
}.

Record FileAnalysis := MkFileAnalysis {
  name : string;
  fa_issues : list CodeIssue
}.

Record AnalysisSummary := MkSummary {
  total_files : Z;
  total_issues : Z;
  critical_issues : Z;
  high_issues : Z;
  medium_issues : Z;
  low_issues : Z
}.

Record AnalysisResults := MkResults {
  files : list FileAnalysis;
  summary : AnalysisSummary
}.

End Models.

(** ** app/agents/tools.py: fetching the pull request *)

Module GitHubPRTool.
Import PyStr.

Record file_info := FileInfo { filename : string; status : string }.

(** The fields of the pull-request JSON that the tool reads. *)
Record pr_json := PrJson {
  pj_title : option string;
  pj_body : option string;
  pj_user_login : option string;
  pj_base_ref : option string;
  pj_head_ref : option string;
  pj_head_sha : string
}.

Record pr_info := PrInfo {
  title : option string;
  pr_description : option string;
  author : option string;
  base_branch : option string;
  head_branch : option string
}.

Record pr_data := PrData {
  pd_info : pr_info;
  pd_files : list file_info;
  pd_diff : string;
  pd_changed_lines : gmap string (list Z);
  pd_files_content : gmap string string
}.

(** A call made to the GitHub service, with the path of a content fetch
    and whether it returned. *)
Inductive call :=
| CallPrInfo
| CallPrFiles
| CallPrDiff
| CallFileContent (path : string) (returned : bool).

(** The paths of the content fetches among some calls, in order. *)
Definition content_paths (cs : list call) : list string :=
  flat_map (fun c => match c with
                     | CallFileContent path _ => [path]
                     | _ => []
                     end) cs.

(** [file_info['status'] != 'removed'] *)
Definition not_removed (fi : file_info) : bool :=
  negb (String.eqb (status fi) "removed").

Section WithService.
(** The state of the outside world the HTTP calls act on. *)
Context {W : Type}.

(** The four network methods of [GitHubService]; each may raise
    ([raise_for_status], a transport error, a bad repository URL). *)
Record service := Service {
  get_pr_info : string -> Z -> W -> W * res pr_json;
  get_pr_files : string -> Z -> W -> W * res (list file_info);
  get_pr_diff : string -> Z -> W -> W * res string;
  get_file_content : string -> string -> string -> W -> W * res string
}.

(** The world together with the calls made so far, oldest first. *)
Record io := Io { world : W; calls : list call }.

Definition is_ok {A} (r : res A) : bool :=
  match r with inr _ => true | inl _ => false end.

Definition perform {A} (f : W -> W * res A) (c : res A -> call) : M io A :=
  fun s =>
    let '(w, r) := f (world s) in
    (Io w (calls s ++ [c r]), r).

Variable github_service : service.

(** One iteration of [for file_info in pr_files]. *)
Definition fetch_content (repo_url sha : string)
    (files_content : gmap string string) (fi : file_info)
  : M io (gmap string string) :=
  if not_removed fi then
    try_except
      (content <- perform (get_file_content github_service repo_url (filename fi) sha)
                    (fun r => CallFileContent (filename fi) (is_ok r)) ;;
       ret (<[filename fi := content]> files_content))%M
      (fun _ => ret files_content)
  else ret files_content.

Definition _fetch_pr_data (repo_url : string) (pr_number : Z) : M io pr_data :=
  try_except
    (pr_info <- perform (get_pr_info github_service repo_url pr_number)
                  (fun _ => CallPrInfo) ;;
     pr_files <- perform (get_pr_files github_service repo_url pr_number)
                   (fun _ => CallPrFiles) ;;
     pr_diff <- perform (get_pr_diff github_service repo_url pr_number)
                  (fun _ => CallPrDiff) ;;
     let changed_lines := GitHubService.parse_diff_for_changed_lines pr_diff in
     files_content <- mfor (fetch_content repo_url (pj_head_sha pr_info)) pr_files ∅ ;;
     ret (PrData
            (PrInfo (pj_title pr_info) (pj_body pr_info) (pj_user_login pr_info)
               (pj_base_ref pr_info) (pj_head_ref pr_info))
            pr_files pr_diff changed_lines files_content))%M
    (fun e => raise e).

End WithService.
Arguments service : clear implicits.
Arguments io : clear implicits.

End GitHubPRTool.

(** ** app/agents/code_review_agent.py *)

Module CodeReviewAgent.
Import PyStr Models GitHubPRTool.

Definition skip_extensions : list string :=
  [ ".png"; ".jpg"; ".jpeg"; ".gif"; ".svg"; ".ico";
    ".pdf"; ".doc"; ".docx"; ".xls"; ".xlsx";
    ".zip"; ".tar"; ".gz"; ".rar";
    ".mp4"; ".avi"; ".mov"; ".mp3"; ".wav";
    ".lock"; ".log" ].

Definition skip_patterns : list string :=
  [ "node_modules/"; "venv/"; "__pycache__/"; ".git/";
    "dist/"; "build/"; "target/"; ".idea/"; ".vscode/" ].

Definition _should_skip_file (file_name : string) : bool :=
  existsb (fun ext => endswith ext (lower file_name)) skip_extensions
  || existsb (fun pattern => contains pattern file_name) skip_patterns.

(** [CodeIssue(type=issue['type'], ...)] *)
Definition to_CodeIssue (i : CodeAnalysisTool.issue) : res CodeIssue :=
  (t <-? IssueType_of (CodeAnalysisTool.issue_type i);
   inr (MkCodeIssue t (CodeAnalysisTool.issue_line i)
          (CodeAnalysisTool.description i) (CodeAnalysisTool.suggestion i)
          (CodeAnalysisTool.severity i)))%res.

Definition convert_issues (l : list CodeAnalysisTool.issue) : res (list CodeIssue) :=
  for_each (fun issues issue => (c <-? to_CodeIssue issue; inr (issues ++ [c]))%res) l [].

(** The severities the summary counts. *)
Definition counted_severity (sev : string) : bool :=
  String.eqb sev "critical" || String.eqb sev "high"
  || String.eqb sev "medium" || String.eqb sev "low".

(** An issue dict that the conversion accepts and the summary counts. *)
Definition issue_ok (i : CodeAnalysisTool.issue) : bool :=
  is_ok (IssueType_of (CodeAnalysisTool.issue_type i))
  && counted_severity (CodeAnalysisTool.severity i).

(** One iteration of [for file_info in pr_data['files']]. *)
Definition analyze_file (pd : pr_data) (file_analyses : list FileAnalysis)
    (fi : file_info) : res (list FileAnalysis) :=
  if String.eqb (status fi) "removed" then inr file_analyses
  else
    let file_name := filename fi in
    if _should_skip_file file_name then inr file_analyses
    else
      let file_content := default EmptyString (pd_files_content pd !! file_name) in
      if negb (truthy file_content) then inr file_analyses
      else
        let changed_lines := default [] (pd_changed_lines pd !! file_name) in
        (analysis_result <-? CodeAnalysisTool._run file_content file_name (Some changed_lines);
         issues <-? convert_issues (CodeAnalysisTool.issues analysis_result);
         match issues with
         | [] => inr file_analyses
         | _ => inr (file_analyses ++ [MkFileAnalysis file_name issues])
         end)%res.

Fixpoint sum (l : list Z) : Z :=
  match l with
  | [] => 0
  | x :: r => x + sum r
  end.

(** [sum(1 for fa in file_analyses for issue in fa.issues if issue.severity == sev)] *)
Definition count_severity (sev : string) (file_analyses : list FileAnalysis) : Z :=
  sum (flat_map
         (fun fa => flat_map
            (fun issue => if String.eqb (ci_severity issue) sev then [1] else [])
            (fa_issues fa))
         file_analyses).

Definition make_summary (file_analyses : list FileAnalysis) : AnalysisSummary :=
  let total_issues :=
    sum (map (fun fa => Z.of_nat (length (fa_issues fa))) file_analyses) in
  MkSummary (Z.of_nat (length file_analyses)) total_issues
    (count_severity "critical" file_analyses)
    (count_severity "high" file_analyses)
    (count_severity "medium" file_analyses)
    (count_severity "low" file_analyses).

(** The part of [analyze_pr] after the fetch: the loop over the files and
    the summary. *)
Definition analyze_fetched (pd : pr_data) : res AnalysisResults :=
  (file_analyses <-? for_each (analyze_file pd) (pd_files pd) [];
   inr (MkResults file_analyses (make_summary file_analyses)))%res.

(** The fetched data with the entry of one file in [changed_lines] set. *)
Definition with_changed_lines (pd : pr_data) (file_name : string) (l : list Z)
  : pr_data :=
  PrData (pd_info pd) (pd_files pd) (pd_diff pd)
    (<[file_name := l]> (pd_changed_lines pd)) (pd_files_content pd).

(** The fetched data without the changed files of a given name. *)
Definition without_file (pd : pr_data) (file_name : string) : pr_data :=
  PrData (pd_info pd)
    (List.filter (fun fi => negb (String.eqb (filename fi) file_name)) (pd_files pd))
    (pd_diff pd) (pd_changed_lines pd) (pd_files_content pd).

(** [range(1, len(lines) + 1)] for a content. *)
Definition every_line (file_content : string) : list Z :=
  seqZ 1 (Z.of_nat (length (split newline file_content))).

Section WithService.
Context {W : Type}.
Variable github_service : service W.

Definition analyze_pr (repo_url : string) (pr_number : Z) : M (io W) AnalysisResults :=
  try_except
    (pr_data <- _fetch_pr_data github_service repo_url pr_number ;;
     lift (analyze_fetched pr_data))%M
    (fun e => raise e).

End WithService.

End CodeReviewAgent.

(** ** app/database.py, app/tasks.py *)

Module Tasks.
Import Models GitHubPRTool.

(** A row of [analysis_tasks]; the two timestamps are left out. *)
Record AnalysisTask := MkTask {
  task_id : string;
  repo_url : string;
  pr_number : Z;
  status : TaskStatus;
  results : option string;
  error_message : option string
}.

Definition set_status (st : TaskStatus) (t : AnalysisTask) : AnalysisTask :=
  MkTask (task_id t) (repo_url t) (pr_number t) st (results t) (error_message t).

Definition set_results (r : string) (t : AnalysisTask) : AnalysisTask :=
  MkTask (task_id t) (repo_url t) (pr_number t) (status t) (Some r) (error_message t).

Definition set_error_message (m : string) (t : AnalysisTask) : AnalysisTask :=
  MkTask (task_id t) (repo_url t) (pr_number t) (status t) (results t) (Some m).

Section Worker.
Context {W Dump : Type}.

(** [GitHubService(token=...)] as built by the agent for a token. *)
Variable github : option string -> service W.
(** [results.model_dump_json()] and [results.model_dump()] *)
Variable model_dump_json : AnalysisResults -> res string.
Variable model_dump : AnalysisResults -> res Dump.

(** What the worker acts on: the table keyed by [task_id], the states
    given to [self.update_state], and the network. *)
Record worker := Worker {
  db : gmap string AnalysisTask;
  celery : list (string * string);
  net : io W
}.

Record task_return := TaskReturn {
  tr_task_id : string;
  tr_status : string;
  tr_results : Dump
}.

(** [db.query(AnalysisTask).filter(AnalysisTask.task_id == task_id).first()] *)
Definition query (id : string) : M worker (option AnalysisTask) :=
  fun s => (s, inr (db s !! id)).

(** [if task_record: <assignments>; db.commit()] *)
Definition update_record (task_record : option AnalysisTask) (id : string)
    (f : AnalysisTask -> AnalysisTask) : M worker unit :=
  fun s =>
    match task_record with
    | Some _ => (Worker (alter f id (db s)) (celery s) (net s), inr tt)
    | None => (s, inr tt)
    end.

Definition update_state (state text : string) : M worker unit :=
  fun s => (Worker (db s) (celery s ++ [(state, text)]) (net s), inr tt).

Definition on_net {A} (m : M (io W) A) : M worker A :=
  fun s => let '(n, r) := m (net s) in (Worker (db s) (celery s) n, r).

Definition analyze_pr_task (id repo : string) (pr : Z)
    (github_token : option string) : M worker task_return :=
  (task_record <- query id ;;
   try_except
     (update_record task_record id (set_status PROCESSING) ;;;
      update_state "PROGRESS" "Initializing agent..." ;;;
      update_state "PROGRESS" "Fetching PR data..." ;;;
      results <- on_net (CodeReviewAgent.analyze_pr (github github_token) repo pr) ;;
      update_state "PROGRESS" "Finalizing results..." ;;;
      results_json <- lift (model_dump_json results) ;;
      update_record task_record id
        (fun t => set_results results_json (set_status COMPLETED t)) ;;;
      dumped <- lift (model_dump results) ;;
      ret (TaskReturn id "completed" dumped))
     (fun e =>
        update_record task_record id
          (fun t => set_error_message (exn_str e) (set_status FAILED t)) ;;;
        update_state "FAILURE" (exn_str e) ;;;
        raise e))%M.

(** The run raises [e] in one of the three mandatory fetches. *)
Inductive mandatory_fetch_raises (svc : service W) (repo : string) (pr : Z)
    (w : W) (e : exn) : Prop :=
| info_raises w1 :
    get_pr_info svc repo pr w = (w1, inl e) ->
    mandatory_fetch_raises svc repo pr w e
| files_raises w1 j w2 :
    get_pr_info svc repo pr w = (w1, inr j) ->
    get_pr_files svc repo pr w1 = (w2, inl e) ->
    mandatory_fetch_raises svc repo pr w e
| diff_raises w1 j w2 fs w3 :
    get_pr_info svc repo pr w = (w1, inr j) ->
    get_pr_files svc repo pr w1 = (w2, inr fs) ->
    get_pr_diff svc repo pr w2 = (w3, inl e) ->
    mandatory_fetch_raises svc repo pr w e.

(** The analysis returns and its JSON serialization raises [e]. *)
Definition serialization_raises (svc : service W) (repo : string) (pr : Z)
    (n : io W) (e : exn) : Prop :=
  exists n' r,
    CodeReviewAgent.analyze_pr svc repo pr n = (n', inr r)
    /\ model_dump_json r = inl e.

End Worker.
Arguments worker : clear implicits.

End Tasks.

(** ** app/main.py: submission *)

Module Main.
Import Models Tasks.

(** The JSON body of [POST /analyze-pr] before validation. *)
Record body := Body {
  body_repo_url : string;
  body_pr_number : Z;
  body_github_token : option string
}.

(** [AnalyzePRRequest]: [repo_url: HttpUrl], [pr_number: int]. *)
Record AnalyzePRRequest := MkRequest {
  req_repo_url : string;
  req_pr_number : Z;
  req_github_token : option string
}.

(** An [apply_async] call: the arguments and the task id. *)
Record queued := Queued {
  q_repo_url : string;
  q_pr_number : Z;
  q_github_token : option string;
  q_task_id : string
}.

Record app := App {
  app_db : gmap string AnalysisTask;
  app_queue : list queued
}.

Inductive response :=
| TaskResponse (id : string) (st : TaskStatus) (message : string)
| HTTP_422
| HTTP_500.

Section Endpoint.
(** The [HttpUrl] type of the validation library: the text of the URL
    when the string is an http or https URL. *)
Variable http_url : string -> option string.

(** Validation of the body against [AnalyzePRRequest]; the only
    constrained field is [repo_url]. *)
Definition validate (b : body) : option AnalyzePRRequest :=
  match http_url (body_repo_url b) with
  | Some u => Some (MkRequest u (body_pr_number b) (body_github_token b))
  | None => None
  end.

(** [db.add(task_record); db.commit()]: whether the database stores the
    new row.  The commit raises when a value does not fit its column
    ([pr_number] is an [Integer] column, and the request model puts no bound
    on the number) or when the database cannot be reached. *)
Variable commit_ok : AnalysisTask -> bool.

(** [analyze_pr_task.apply_async(...)]: whether the broker takes the task. *)
Variable apply_async_ok : queued -> bool.

(** The handler; [uuid] is the value of [uuid.uuid4()].  Every exception
    of its body is turned into a 500 by [except Exception].  The column
    [task_id] is unique, so a second row with the same id makes the commit
    raise; a commit that raises stores nothing; when [apply_async] raises the
    row is already committed and stays. *)
Definition handler (uuid : string) (request : AnalyzePRRequest) (s : app)
  : app * response :=
  let task_record :=
    MkTask uuid (req_repo_url request) (req_pr_number request) PENDING None None in
  let call :=
    Queued (req_repo_url request) (req_pr_number request)
      (req_github_token request) uuid in
  match app_db s !! uuid with
  | Some _ => (s, HTTP_500)
  | None =>
      if commit_ok task_record then
        let stored := <[uuid := task_record]> (app_db s) in
        if apply_async_ok call then
          (App stored (app_queue s ++ [call]),
           TaskResponse uuid PENDING "PR analysis task has been queued for processing")
        else (App stored (app_queue s), HTTP_500)
      else (s, HTTP_500)
  end.

Definition analyze_pr (uuid : string) (b : body) (s : app) : app * response :=
  match validate b with
  | Some request => handler uuid request s
  | None => (s, HTTP_422)
  end.

End Endpoint.

(** A URL check that looks at the scheme only: enough to tell the
    accepted from the rejected URL of the API tests. *)
Definition scheme_only (u : string) : option string :=
  if PyStr.startswith "http://" u || PyStr.startswith "https://" u
  then Some u else None.

(** The default database (SQLite) stores an integer of 64 bits: the
    commit raises [OverflowError] on a PR number outside that range. *)
Definition sqlite_integer (t : AnalysisTask) : bool :=
  (- 2 ^ 63 <=? pr_number t) && (pr_number t <? 2 ^ 63).

(** A broker that takes every task. *)
Definition broker_up (q : queued) : bool := true.

End Main.

(** ** Concrete services and inputs *)

Module Demo.
Import PyStr Models GitHubPRTool.

(** A service over a world with one state: each method answers the same
    way at every call. *)
Definition fixed (info : res pr_json) (fs : res (list file_info))
    (diff : res string) (content : string -> res string) : service unit :=
  @Service unit
    (fun _ _ w => (w, info))
    (fun _ _ w => (w, fs))
    (fun _ _ w => (w, diff))
    (fun _ path _ w => (w, content path)).

Definition a_pr : pr_json :=
  PrJson (Some "Test PR") (Some "Test description") (Some "testuser")
    (Some "main") (Some "feature") "abc123".

Definition repo : string := "https://github.com/test/repo".

Definition start : io unit := Io tt [].

(** One modified Python file that the diff does not mention. *)
Definition svc_unlisted : service unit :=
  fixed (inr a_pr) (inr [FileInfo "a.py" "modified"]) (inr EmptyString)
    (fun _ => inr "x = 1 ").

Definition two_lines : string := unlines ["x = 1"; "y = 2 "].

Definition pd_unlisted : pr_data :=
  PrData (PrInfo None None None None None) [FileInfo "a.py" "modified"]
    EmptyString ∅ {[ "a.py" := "x = 1 " ]}.

(** One modified image. *)
Definition svc_image : service unit :=
  fixed (inr a_pr) (inr [FileInfo "image.png" "modified"]) (inr EmptyString)
    (fun _ => inr "binary").

(** The diff fetch times out; the transport error has an empty text. *)
Definition read_timeout : exn := Exn "ReadTimeout" EmptyString.

Definition svc_timeout : service unit :=
  fixed (inr a_pr) (inr [FileInfo "a.py" "modified"]) (inl read_timeout)
    (fun _ => inr "x = 1 ").

(** The diff fetch is refused with a status error. *)
Definition status_error : exn :=
  Exn "HTTPStatusError" "Client error '404 Not Found'".

Definition svc_not_found : service unit :=
  fixed (inr a_pr) (inr [FileInfo "a.py" "modified"]) (inl status_error)
    (fun _ => inr "x = 1 ").

(** Two files; the content fetch of the second one fails. *)
Definition svc_partial : service unit :=
  fixed (inr a_pr)
    (inr [FileInfo "a.py" "modified"; FileInfo "b.py" "added"])
    (inr GitHubService.scenario_A)
    (fun path => if String.eqb path "a.py" then inr "x = 1 "
                 else inl status_error).

(** A serializer that cannot fail, and the job table after a submission. *)
Definition dump_json (r : AnalysisResults) : res string := inr "{}".
Definition dump (r : AnalysisResults) : res unit := inr tt.

Definition job : Tasks.AnalysisTask :=
  Tasks.MkTask "job-1" repo 1 PENDING None None.

Definition worker_start : Tasks.worker unit :=
  Tasks.Worker {[ "job-1" := job ]} [] start.



Definition app_start : Main.app := Main.App ∅ [].

End Demo.

(** ** app/services/github_service.py: the repository URL *)

Module RepoUrl.
Import PyStr.

(** [s.lstrip(c)] and [s.rstrip(c)] for one character. *)
Fixpoint lstrip (c : ascii) (s : string) : string :=
  match s with
  | EmptyString => EmptyString
  | String a s' => if Ascii.eqb a c then lstrip c s' else s
  end.

Fixpoint rstrip (c : ascii) (s : string) : string :=
  match s with
  | EmptyString => EmptyString
  | String a s' =>
      match rstrip c s' with
      | EmptyString => if Ascii.eqb a c then EmptyString else String a EmptyString
      | r => String a r
      end
  end.

(** [s.strip('/')] *)
Definition strip (c : ascii) (s : string) : string := rstrip c (lstrip c s).

(** [s.replace('.git', '')]: the occurrences are found from the left and
    do not overlap; [skip] is the number of characters of a found occurrence
    that are still to be dropped. *)
Fixpoint remove_git_from (skip : nat) (s : string) : string :=
  match s with
  | EmptyString => EmptyString
  | String a s' =>
      match skip with
      | S k => remove_git_from k s'
      | O =>
          if String.prefix ".git" s then remove_git_from 3 s'
          else String a (remove_git_from 0 s')
      end
  end.

Definition remove_git : string -> string := remove_git_from 0.

Section WithUrlparse.
(** [urlparse(str(repo_url)).path], from the standard library. *)
Variable urlparse_path : string -> string.

Definition parse_repo_url (repo_url : string) : res (string * string) :=
  let path_parts := split "/" (strip "/" (urlparse_path repo_url)) in
  match path_parts with
  | owner :: repo :: _ => inr (owner, remove_git repo)
  | _ => inl (Exn "ValueError" ("Invalid GitHub repository URL: " +:+ repo_url))
  end.

End WithUrlparse.

(** A URL reader for the URLs of the tests: with a scheme, the path is
    what starts at the first slash after the two of the scheme; with none,
    the whole text is the path. *)
Fixpoint from_slash (s : string) : string :=
  match s with
  | EmptyString => EmptyString
  | String a s' => if Ascii.eqb a "/" then s else from_slash s'
  end.

Fixpoint after_scheme (s : string) : option string :=
  match s with
  | EmptyString => None
  | String a s' => if String.prefix "://" s then Some (CodeAnalysisTool.drop 3 s)
                   else after_scheme s'
  end.

Definition simple_path (url : string) : string :=
  match after_scheme url with
  | Some rest => from_slash rest
  | None => url
  end.

End RepoUrl.

(** ** app/tasks.py: the retention sweep *)

Module Cleanup.
Import Models Tasks.

(** A row of [analysis_tasks] with its column [created_at]; a time is a
    number of microseconds. *)
Record dated := Dated { row : AnalysisTask; created_at : Z }.

(** [timedelta(days=7)] *)
Definition seven_days : Z := 7 * 24 * 3600 * 1000000.

(** The filter of the query: created before the cutoff, and completed or
    failed. *)
Definition swept (utcnow : Z) (d : dated) : bool :=
  (created_at d <? utcnow - seven_days)
  && match status (row d) with
     | COMPLETED | FAILED => true
     | PENDING | PROCESSING => false
     end.

(** The table after the deletions, and the number that is logged. *)
Definition cleanup_old_tasks (utcnow : Z) (table : gmap string dated)
  : gmap string dated * nat :=
  (filter (fun kv => swept utcnow kv.2 = false) table,
   size (filter (fun kv => swept utcnow kv.2 = true) table)).

End Cleanup.

(** ** app/main.py: the queries *)

Module Queries.
Import PyStr Models Tasks.

(** What the handler reads of [celery_app.AsyncResult(task_id)]: the
    state, [info.get('status', 'Processing...')], which raises when the info
    is no dict, and [str(info)]. *)
Record async_result := AsyncResult {
  state : string;
  info_status : res string;
  info_str : string
}.

(** The responses, without the two timestamps. *)
Inductive status_response :=
| TaskStatusResponse (id : string) (st : TaskStatus) (progress : option string)
| Status_404.

Inductive results_response :=
| TaskResultsResponse (id : string) (st : TaskStatus)
    (res_results : option AnalysisResults) (res_error : option string)
| Results_404.

Section Endpoints.
(** [celery_app.AsyncResult] with its accessors; it raises when the
    result backend cannot be reached. *)
Variable async_result_of : string -> res async_result.
(** [AnalysisResults] built from the dict of [json.loads(text)] *)
Variable loads : string -> res AnalysisResults.

Definition get_task_status (id : string) (table : gmap string AnalysisTask)
  : gmap string AnalysisTask * status_response :=
  match table !! id with
  | None => (table, Status_404)
  | Some task_record =>
      match async_result_of id with
      | inr celery_result =>
          if String.eqb (state celery_result) "PROGRESS" then
            match info_status celery_result with
            | inr progress =>
                (table, TaskStatusResponse id (status task_record) (Some progress))
            | inl _ => (table, TaskStatusResponse id (status task_record) None)
            end
          else if String.eqb (state celery_result) "FAILURE" then
            match status task_record with
            | FAILED => (table, TaskStatusResponse id (status task_record) None)
            | _ =>
                let failed :=
                  set_error_message (info_str celery_result)
                    (set_status FAILED task_record) in
                (<[id := failed]> table, TaskStatusResponse id (status failed) None)
            end
          else (table, TaskStatusResponse id (status task_record) None)
      | inl _ => (table, TaskStatusResponse id (status task_record) None)
      end
  end.

Definition get_task_results (id : string) (table : gmap string AnalysisTask)
  : results_response :=
  match table !! id with
  | None => Results_404
  | Some task_record =>
      let parsed :=
        match results task_record with
        | Some text =>
            if truthy text then
              match loads text with
              | inr r => Some r
              | inl _ => None
              end
            else None
        | None => None
        end in
      TaskResultsResponse id (status task_record) parsed (error_message task_record)
  end.

End Endpoints.

End Queries.

(** ** More concrete inputs *)

Module Demo2.
Import Models Tasks.

Definition old_done : Cleanup.dated :=
  Cleanup.Dated (MkTask "job-1" Demo.repo 1 COMPLETED (Some "{}") None) 0.

Definition old_pending : Cleanup.dated :=
  Cleanup.Dated (MkTask "job-2" Demo.repo 2 PENDING None None) 0.

Definition table : gmap string Cleanup.dated :=
  {[ "job-1" := old_done; "job-2" := old_pending ]}.

(** Eight days, in microseconds. *)
Definition day8 : Z := 8 * 24 * 3600 * 1000000.

(** The worker died: the backend shows a failure. *)
Definition lost_worker (id : string) : res Queries.async_result :=
  inr (Queries.AsyncResult "FAILURE" (inl (Exn "AttributeError" "get")) "Worker exited").

Definition empty_results : AnalysisResults :=
  MkResults [] (MkSummary 0 0 0 0 0 0).

Definition loads_empty (text : string) : res AnalysisResults := inr empty_results.



End Demo2.

(** ** Notions used to state the properties of the parser *)

Module DiffLines.
Import PyStr GitHubService.

(** The path a line gives to the file cursor, when it is a file header
    in which the search for the path succeeds. *)
Definition header_path (line : string) : option string :=
  if startswith "diff --git" line then search_b_path line else None.

(** Every character of a string is in a class. *)
Fixpoint all_chars (p : ascii -> bool) (s : string) : bool :=
  match s with
  | EmptyString => true
  | String c s' => p c && all_chars p s'
  end.

End DiffLines.

(** ** Notions used to state the properties of the review *)

Module ReviewFacts.
Import GitHubPRTool CodeReviewAgent.

(** A changed file that passes the two tests at the head of the loop of
    [analyze_pr]: it is not removed and the filter accepts it. *)
Definition kept (fi : file_info) : bool :=
  not_removed fi && negb (_should_skip_file (filename fi)).

(** The types and the severities that the rules of the analyzer give. *)
Definition rule_issue (i : CodeAnalysisTool.issue) : bool :=
  (String.eqb (CodeAnalysisTool.issue_type i) "style"
   || String.eqb (CodeAnalysisTool.issue_type i) "bug"
   || String.eqb (CodeAnalysisTool.issue_type i) "performance"
   || String.eqb (CodeAnalysisTool.issue_type i) "best_practice")
  && (String.eqb (CodeAnalysisTool.severity i) "low"
      || String.eqb (CodeAnalysisTool.severity i) "medium"
      || String.eqb (CodeAnalysisTool.severity i) "high").

Definition rule_code_issue (c : Models.CodeIssue) : Prop :=
  Models.ci_type c <> Models.SECURITY /\ Models.ci_severity c <> "critical".

End ReviewFacts.

(** * Properties *)

(** ** Strings and loops *)

Section Basics.
Import PyStr.

Lemma split_nonempty sep s : split sep s <> [].
Proof.
  destruct s as [|c s]; simpl; [discriminate|].
  destruct (Ascii.eqb c sep); [discriminate|].
  destruct (split sep s); discriminate.
Qed.

Lemma split_length_pos sep s : (0 < length (split sep s))%nat.
Proof.
  pose proof (split_nonempty sep s) as H.
  destruct (split sep s); [congruence | simpl; lia].
Qed.

Lemma for_each_app {A B} (body : B -> A -> res B) xs ys acc :
  for_each body (xs ++ ys) acc = rbind (for_each body xs acc) (for_each body ys).
Proof.
  revert acc. induction xs as [|x xs IH]; intros acc; simpl; [reflexivity|].
  destruct (body acc x) as [e|b]; simpl; [reflexivity | apply IH].
Qed.

(** An invariant of the accumulator is kept by a loop that returns. *)
Lemma for_each_inv {A B} (P : B -> Prop) (Q : A -> Prop)
    (body : B -> A -> res B) xs :
  (forall acc x acc', P acc -> Q x -> body acc x = inr acc' -> P acc') ->
  Forall Q xs ->
  forall acc out, P acc -> for_each body xs acc = inr out -> P out.
Proof.
  intros Hstep HQ.
  induction HQ as [|x xs Hx _ IH]; intros acc out HP Hrun; simpl in Hrun.
  - congruence.
  - destruct (body acc x) as [e|b] eqn:Hb; simpl in Hrun; [discriminate|].
    eapply IH; [eapply Hstep; eassumption | exact Hrun].
Qed.

Lemma Forall_trivial {A} (xs : list A) : Forall (fun _ => True) xs.
Proof. induction xs; constructor; auto. Qed.

(** A loop whose body makes no effect makes none. *)
Lemma mfor_lift {S A B} (f : B -> A -> res B) xs acc (s : S) :
  mfor (fun b x => lift (f b x)) xs acc s = (s, for_each f xs acc).
Proof.
  revert acc. induction xs as [|x xs IH]; intros acc; simpl; [reflexivity|].
  unfold bind, lift at 1. destruct (f acc x) as [e|b]; simpl; [reflexivity | apply IH].
Qed.

End Basics.

(** ** The diff parser *)

Section DiffParser.
Import PyStr GitHubService.

Lemma prefix_cons a s1 b s2 :
  String.prefix (String a s1) (String b s2) = Ascii.eqb a b && String.prefix s1 s2.
Proof.
  cbn [String.prefix]. destruct (ascii_dec a b) as [->|Hne].
  - rewrite Ascii.eqb_refl. reflexivity.
  - apply Ascii.eqb_neq in Hne. rewrite Hne. reflexivity.
Qed.

Lemma hunk_header_not_file_header line :
  startswith "@@" line = true -> startswith "diff --git" line = false.
Proof.
  unfold startswith. destruct line as [|c l]; [intros; discriminate|].
  rewrite !prefix_cons. intros H.
  apply andb_true_iff in H as [H _]. apply Ascii.eqb_eq in H as <-.
  reflexivity.
Qed.

Lemma search_b_path_truthy line p :
  search_b_path line = Some p -> truthy p = true.
Proof.
  induction line as [|c rest IH]; simpl; [discriminate|].
  destruct rest as [|c' [|c'' r]]; try discriminate.
  destruct (Ascii.eqb c "b" && Ascii.eqb c' "/").
  - intros [= <-]. reflexivity.
  - exact IH.
Qed.

Lemma step_cursor_ok s line : cursor_ok s -> cursor_ok (step s line).
Proof.
  intros Hs. unfold step.
  destruct (startswith "diff --git" line).
  - destruct (search_b_path line) as [p|] eqn:Hp; [|exact Hs].
    intros f [= <-]; simpl. split; [eapply search_b_path_truthy; eassumption|].
    rewrite lookup_insert_eq. eauto.
  - destruct (startswith "@@" line && cursor_set (current_file s)); [|exact Hs].
    destruct (search_hunk line) as [[g1 g2]|]; [|exact Hs].
    destruct (current_file s) as [f0|] eqn:Hf; [|exact Hs].
    intros f Hcur; simpl in Hcur. injection Hcur as <-.
    destruct (Hs f0 Hf) as [Ht Hl]. split; [exact Ht|]. simpl.
    rewrite lookup_alter_eq. destruct Hl as [l ->]. simpl. eauto.
Qed.

Lemma fold_step_cursor_ok ls s : cursor_ok s -> cursor_ok (fold_left step ls s).
Proof.
  revert s. induction ls as [|l ls IH]; intros s Hs; simpl; [exact Hs|].
  apply IH, step_cursor_ok, Hs.
Qed.

Lemma parse_lines_cursor_ok ls : cursor_ok (parse_lines ls).
Proof. apply fold_step_cursor_ok. intros f; simpl; discriminate. Qed.

Lemma parse_lines_snoc ls line :
  parse_lines (ls ++ [line]) = step (parse_lines ls) line.
Proof. unfold parse_lines. rewrite fold_left_app. reflexivity. Qed.

Lemma alter_lookup_insert (m : gmap string (list Z)) g f l :
  m !! f = Some l -> alter g f m = <[f := g l]> m.
Proof.
  intros Hl. apply map_eq. intros k.
  destruct (decide (f = k)) as [<-|Hne].
  - rewrite lookup_alter_eq, lookup_insert_eq, Hl. reflexivity.
  - rewrite lookup_alter_ne, lookup_insert_ne by exact Hne. reflexivity.
Qed.

(** C1 (as amended): a line that is no header records nothing; a hunk
    header met while a file is current appends to the list of that file
    every number from the start it names, as many as the count it names
    (one when it names none), whatever the lines of the hunk are; the diff
    of scenario A gives test.py the lines 1 to 4. *)
Theorem C1_hunk_header_records_range (ls : list string) (line : string) :
  (is_header line = false -> parse_lines (ls ++ [line]) = parse_lines ls)
  /\ (forall f g1 g2,
        current_file (parse_lines ls) = Some f ->
        startswith "@@" line = true ->
        search_hunk line = Some (g1, g2) ->
        exists l,
          changed_lines (parse_lines ls) !! f = Some l
          /\ parse_lines (ls ++ [line])
             = St (<[f := l ++ seqZ (int g1) (hunk_count g2)]>
                     (changed_lines (parse_lines ls)))
                  (Some f))
  /\ parse_diff_for_changed_lines scenario_A = {[ "test.py" := [1; 2; 3; 4] ]}.
Proof.
  rewrite parse_lines_snoc. split; [|split].
  - unfold is_header, step. intros H.
    apply orb_false_iff in H as [-> ->]. reflexivity.
  - intros f g1 g2 Hf Hat Hh.
    destruct (parse_lines_cursor_ok ls f Hf) as [Ht [l Hl]].
    exists l. split; [exact Hl|].
    unfold step. rewrite (hunk_header_not_file_header _ Hat), Hat, Hf, Hh.
    simpl. rewrite Ht.
    rewrite (alter_lookup_insert _ _ _ _ Hl). reflexivity.
  - vm_compute. reflexivity.
Qed.

Lemma C1_hunk_header_records_range_witness :
  exists l,
    changed_lines (parse_lines ["diff --git a/test.py b/test.py"]) !! "test.py" = Some l
    /\ parse_lines (["diff --git a/test.py b/test.py"] ++ ["@@ -1,3 +1,4 @@"])
       = St (<["test.py" := l ++ seqZ (int "1") (hunk_count (Some "4"))]>
               (changed_lines (parse_lines ["diff --git a/test.py b/test.py"])))
            (Some "test.py").
Proof.
  apply (proj1 (proj2 (C1_hunk_header_records_range
                         ["diff --git a/test.py b/test.py"] "@@ -1,3 +1,4 @@")));
    vm_compute; reflexivity.
Defined.

(** C1, scenario A as the claim states it, fails: the list of test.py is
    [1; 2; 3; 4], not [2]; lines 1 and 3, two context lines, and line 4,
    which the hunk does not even show, are recorded. *)
Lemma C1_scenario_A_is_not_2 :
  parse_diff_for_changed_lines scenario_A !! "test.py" = Some [1; 2; 3; 4]
  /\ parse_diff_for_changed_lines scenario_A <> {[ "test.py" := [2] ]}.
Proof.
  split; [vm_compute; reflexivity|].
  intros H. apply (f_equal (fun m => m !! "test.py")) in H.
  vm_compute in H. discriminate.
Qed.

End DiffParser.

(** ** The line analyzer *)

Section LineAnalyzer.
Import PyStr CodeAnalysisTool SharedLists.

(** C7: on scenario B with the lines 1 and 2 of a.py the analyzer
    returns one issue, of type bug, on line 1, of severity medium. *)
Theorem C7_scenario_B_one_bug_on_line_1 :
  exists r i,
    _run scenario_B "a.py" (Some [1; 2]) = inr r
    /\ issues r = [i]
    /\ issue_type i = "bug" /\ issue_line i = 1 /\ severity i = "medium".
Proof.
  eexists _, _. split; [vm_compute; reflexivity|].
  repeat split; reflexivity.
Qed.

(** An entry above the number of lines is passed over. *)
Lemma run_body_above lines ext acc n :
  Z.of_nat (length lines) < n -> run_body lines ext acc n = inr acc.
Proof.
  intros H. unfold run_body.
  destruct (n <=? Z.of_nat (length lines)) eqn:E; [|reflexivity].
  apply Z.leb_le in E. lia.
Qed.

(** C3: the guard of the loop has no lower bound.  On a file of two
    lines the entry 0 passes it and reads the last line, whose issue is
    reported on line 0; the entry -3 passes it too and the indexing raises
    [IndexError]. *)
Theorem C3_entry_below_1_is_indexed :
  _run Demo.two_lines "a.py" (Some [0])
    = inr (RunResult "a.py"
             [Issue "style" 0 "Trailing whitespace" "Remove trailing whitespace" "low"]
             2 1)
  /\ _run Demo.two_lines "a.py" (Some [-3])
     = inl (Exn "IndexError" "list index out of range").
Proof. split; vm_compute; reflexivity. Qed.

Lemma lines_to_analyze_ref_spec r lines (h : store) :
  lines_to_analyze_ref r lines h = (h, inr (lines_to_analyze (deref h r) lines)).
Proof.
  destruct r as [a|]; simpl; [|reflexivity].
  unfold bind, load. destruct (default [] (h !! a)) eqn:E; [|rewrite E]; reflexivity.
Qed.

Lemma _run_ref_spec content file r (h : store) :
  _run_ref content file r h = (h, _run content file (deref h r)).
Proof.
  unfold _run_ref, _run, bind.
  rewrite lines_to_analyze_ref_spec, mfor_lift.
  destruct (for_each _ _ _); reflexivity.
Qed.

(** C9: run on any store of list objects, the analyzer leaves every
    object as it was, its output is the function [_run] of the values of
    its arguments, and a second call with the same arguments gives the
    same output. *)
Theorem C9_run_is_pure content file r (h : store) :
  fst (_run_ref content file r h) = h
  /\ snd (_run_ref content file r h) = _run content file (deref h r)
  /\ _run_ref content file r (fst (_run_ref content file r h))
     = _run_ref content file r h.
Proof.
  rewrite !_run_ref_spec. simpl. auto.
Qed.

End LineAnalyzer.

(** ** The review of the fetched files *)

Section Review.
Import PyStr Models GitHubPRTool CodeReviewAgent.

Lemma lines_to_analyze_every content :
  CodeAnalysisTool.lines_to_analyze (Some (every_line content)) (split newline content)
  = CodeAnalysisTool.lines_to_analyze (Some []) (split newline content).
Proof.
  unfold every_line, CodeAnalysisTool.lines_to_analyze.
  destruct (seqZ 1 _); reflexivity.
Qed.

Lemma _run_every content file :
  CodeAnalysisTool._run content file (Some (every_line content))
  = CodeAnalysisTool._run content file (Some []).
Proof.
  unfold CodeAnalysisTool._run. rewrite lines_to_analyze_every. reflexivity.
Qed.

(** C2 (as amended): a changed file with no entry in the changed-line
    map is treated as if the map listed every line of it: the analyzer
    runs on the whole file. *)
Theorem C2_absent_entry_means_every_line (pd : pr_data)
    (acc : list FileAnalysis) (fi : file_info) :
  pd_changed_lines pd !! filename fi = None ->
  analyze_file pd acc fi
  = analyze_file
      (with_changed_lines pd (filename fi)
         (every_line (default EmptyString (pd_files_content pd !! filename fi))))
      acc fi.
Proof.
  intros Habs. unfold analyze_file, with_changed_lines. simpl.
  rewrite Habs, lookup_insert_eq. simpl.
  rewrite _run_every. reflexivity.
Qed.

Lemma C2_absent_entry_means_every_line_witness :
  analyze_file Demo.pd_unlisted [] (FileInfo "a.py" "modified")
  = analyze_file
      (with_changed_lines Demo.pd_unlisted "a.py" (every_line "x = 1 "))
      [] (FileInfo "a.py" "modified").
Proof.
  apply (C2_absent_entry_means_every_line Demo.pd_unlisted []
           (FileInfo "a.py" "modified")).
  reflexivity.
Defined.

(** C2 as stated fails: the diff is empty, so a.py has no entry, and yet
    the file is analyzed and reported. *)
Lemma C2_unlisted_file_is_reported :
  exists s' pd r,
    _fetch_pr_data Demo.svc_unlisted Demo.repo 1 Demo.start = (s', inr pd)
    /\ pd_changed_lines pd !! "a.py" = None
    /\ analyze_fetched pd = inr r
    /\ files r
       = [MkFileAnalysis "a.py"
            [MkCodeIssue STYLE 1 "Trailing whitespace"
               "Remove trailing whitespace" "low"]].
Proof.
  eexists _, _, _. split; [vm_compute; reflexivity|].
  repeat split; vm_compute; reflexivity.
Qed.

(** *** What the checks and the conversion produce *)

Ltac split_ifs :=
  repeat match goal with
         | |- context [if ?b then _ else _] => destruct b
         end.

Lemma check_line_ok line n ext :
  Forall (fun i => issue_ok i = true) (CodeAnalysisTool.check_line line n ext).
Proof.
  unfold CodeAnalysisTool.check_line.
  repeat apply Forall_app_2.
  - unfold CodeAnalysisTool._check_style_issues. split_ifs; simpl; repeat constructor.
  - unfold CodeAnalysisTool._check_potential_bugs. split_ifs; simpl; repeat constructor.
  - unfold CodeAnalysisTool._check_performance_issues. split_ifs; simpl; repeat constructor.
  - unfold CodeAnalysisTool._check_best_practices. split_ifs; simpl; repeat constructor.
Qed.

Lemma _run_ok content file cl r :
  CodeAnalysisTool._run content file cl = inr r ->
  Forall (fun i => issue_ok i = true) (CodeAnalysisTool.issues r).
Proof.
  unfold CodeAnalysisTool._run.
  destruct (for_each _ _ _) as [e|l] eqn:Hloop; simpl; [discriminate|].
  intros [= <-]. simpl.
  revert Hloop. apply for_each_inv with (Q := fun _ => True).
  - intros acc n acc' Hacc _. unfold CodeAnalysisTool.run_body.
    destruct (n <=? _); [|intros [= <-]; exact Hacc].
    destruct (py_index _ _) as [e|line]; simpl; [discriminate|].
    intros [= <-]. apply Forall_app_2; [exact Hacc | apply check_line_ok].
  - apply Forall_trivial.
  - constructor.
Qed.

Lemma to_CodeIssue_severity i c :
  to_CodeIssue i = inr c -> ci_severity c = CodeAnalysisTool.severity i.
Proof.
  unfold to_CodeIssue. destruct (IssueType_of _); simpl; [discriminate|].
  intros [= <-]. reflexivity.
Qed.

Lemma convert_issues_counted l out :
  Forall (fun i => issue_ok i = true) l ->
  convert_issues l = inr out ->
  Forall (fun c => counted_severity (ci_severity c) = true) out.
Proof.
  intros Hl. unfold convert_issues.
  apply for_each_inv with (Q := fun i => issue_ok i = true); [|exact Hl|constructor].
  intros acc i acc' Hacc Hi.
  destruct (to_CodeIssue i) as [e|c] eqn:Hc; simpl; [discriminate|].
  intros [= <-]. apply Forall_app_2; [exact Hacc|].
  constructor; [|constructor].
  rewrite (to_CodeIssue_severity _ _ Hc).
  unfold issue_ok in Hi. apply andb_true_iff in Hi as [_ Hi]. exact Hi.
Qed.

(** What one iteration over a changed file can do to the report. *)
Lemma analyze_file_inv pd acc fi acc' :
  analyze_file pd acc fi = inr acc' ->
  acc' = acc
  \/ exists content r issues,
       acc' = acc ++ [MkFileAnalysis (filename fi) issues]
       /\ _should_skip_file (filename fi) = false
       /\ content = default EmptyString (pd_files_content pd !! filename fi)
       /\ truthy content = true
       /\ CodeAnalysisTool._run content (filename fi)
            (Some (default [] (pd_changed_lines pd !! filename fi))) = inr r
       /\ convert_issues (CodeAnalysisTool.issues r) = inr issues.
Proof.
  unfold analyze_file.
  destruct (String.eqb (status fi) "removed"); [intros [= <-]; auto|].
  destruct (_should_skip_file (filename fi)) eqn:Hskip; [intros [= <-]; auto|].
  destruct (truthy _) eqn:Ht; simpl; [|intros [= <-]; auto].
  destruct (CodeAnalysisTool._run _ _ _) as [e|r] eqn:Hr; simpl; [discriminate|].
  destruct (convert_issues _) as [e|issues] eqn:Hc; simpl; [discriminate|].
  destruct issues as [|c cs]; intros [= <-]; [auto|].
  right. exists (default EmptyString (pd_files_content pd !! filename fi)), r, (c :: cs).
  auto 10.
Qed.

(** An invariant of the file reports holds of the result when every
    report that an iteration adds satisfies it. *)
Lemma analyze_fetched_Forall (P : FileAnalysis -> Prop) pd r :
  (forall fi acc acc', analyze_file pd acc fi = inr acc' ->
     acc' = acc \/ exists fa, acc' = acc ++ [fa] /\ P fa) ->
  analyze_fetched pd = inr r ->
  Forall P (files r).
Proof.
  intros Hstep. unfold analyze_fetched.
  destruct (for_each _ _ _) as [e|fas] eqn:Hloop; simpl; [discriminate|].
  intros [= <-]. simpl.
  revert Hloop. apply for_each_inv with (Q := fun _ => True).
  - intros acc fi acc' Hacc _ Hrun.
    destruct (Hstep _ _ _ Hrun) as [->|[fa [-> Hfa]]]; [exact Hacc|].
    apply Forall_app_2; [exact Hacc | repeat constructor; exact Hfa].
  - apply Forall_trivial.
  - constructor.
Qed.

Lemma analyze_fetched_counted pd r :
  analyze_fetched pd = inr r ->
  Forall (fun fa => Forall (fun c => counted_severity (ci_severity c) = true)
                      (fa_issues fa)) (files r).
Proof.
  apply analyze_fetched_Forall. intros fi acc acc' Hrun.
  destruct (analyze_file_inv _ _ _ _ Hrun)
    as [->|(content & r0 & issues & -> & _ & _ & _ & Hr & Hc)]; [auto|].
  right. eexists. split; [reflexivity|]. simpl.
  eapply convert_issues_counted; [eapply _run_ok; exact Hr | exact Hc].
Qed.

(** *** The summary *)

Lemma sum_app l1 l2 : sum (l1 ++ l2) = sum l1 + sum l2.
Proof. induction l1 as [|x l1 IH]; simpl; [reflexivity | rewrite IH; lia]. Qed.

Lemma count_severity_cons sev fa fas :
  count_severity sev (fa :: fas)
  = count_severity sev [fa] + count_severity sev fas.
Proof.
  unfold count_severity. simpl. rewrite app_nil_r. apply sum_app.
Qed.

Lemma count_one_file n (l : list CodeIssue) :
  Forall (fun c => counted_severity (ci_severity c) = true) l ->
  count_severity "critical" [MkFileAnalysis n l]
  + count_severity "high" [MkFileAnalysis n l]
  + count_severity "medium" [MkFileAnalysis n l]
  + count_severity "low" [MkFileAnalysis n l]
  = Z.of_nat (length l).
Proof.
  unfold count_severity. simpl. rewrite !app_nil_r.
  induction 1 as [|c l Hc _ IH]; [reflexivity|].
  cbn [flat_map length]. rewrite !sum_app, Nat2Z.inj_succ.
  destruct c as [t ln d sg sev]. simpl in Hc |- *.
  unfold counted_severity in Hc.
  repeat (apply orb_true_iff in Hc as [Hc|Hc]);
    apply String.eqb_eq in Hc; subst sev; simpl; lia.
Qed.

Lemma counts_add_up fas :
  Forall (fun fa => Forall (fun c => counted_severity (ci_severity c) = true)
                      (fa_issues fa)) fas ->
  count_severity "critical" fas + count_severity "high" fas
  + count_severity "medium" fas + count_severity "low" fas
  = sum (map (fun fa => Z.of_nat (length (fa_issues fa))) fas).
Proof.
  induction 1 as [|fa fas Hfa _ IH]; [reflexivity|].
  rewrite (count_severity_cons "critical"), (count_severity_cons "high"),
    (count_severity_cons "medium"), (count_severity_cons "low").
  destruct fa as [n l]. simpl in Hfa |- *.
  pose proof (count_one_file n l Hfa). lia.
Qed.

(** *** Files without content *)

Lemma analyze_file_no_content pd acc fi :
  default EmptyString (pd_files_content pd !! filename fi) = EmptyString ->
  analyze_file pd acc fi = inr acc.
Proof.
  intros H. unfold analyze_file. rewrite H. simpl.
  destruct (String.eqb _ _); [reflexivity|].
  destruct (_should_skip_file _); reflexivity.
Qed.

Lemma for_each_without pd f fs :
  default EmptyString (pd_files_content pd !! f) = EmptyString ->
  forall acc,
    for_each (analyze_file pd) fs acc
    = for_each (analyze_file pd)
        (List.filter (fun fi => negb (String.eqb (filename fi) f)) fs) acc.
Proof.
  intros Hf. induction fs as [|fi fs IH]; intros acc; [reflexivity|].
  cbn [List.filter for_each].
  destruct (String.eqb (filename fi) f) eqn:E; simpl.
  - apply String.eqb_eq in E. subst f.
    rewrite (analyze_file_no_content _ _ _ Hf). simpl. apply IH.
  - destruct (analyze_file pd acc fi); simpl; [reflexivity | apply IH].
Qed.

Lemma analyze_fetched_without pd f :
  default EmptyString (pd_files_content pd !! f) = EmptyString ->
  analyze_fetched pd = analyze_fetched (without_file pd f)
  /\ (forall r fa, analyze_fetched pd = inr r -> In fa (files r) -> name fa <> f).
Proof.
  intros Hf. split.
  - unfold analyze_fetched. simpl.
    rewrite (for_each_without pd f (pd_files pd) Hf []). reflexivity.
  - intros r fa Hr Hin.
    assert (Forall (fun fa => name fa <> f) (files r)) as HF.
    { revert Hr. apply analyze_fetched_Forall. intros fi acc acc' Hrun.
      destruct (analyze_file_inv _ _ _ _ Hrun)
        as [->|(content & r0 & issues & -> & _ & -> & Ht & _)]; [auto|].
      right. eexists. split; [reflexivity|]. simpl. intros Heq.
      rewrite Heq, Hf in Ht. discriminate. }
    rewrite List.Forall_forall in HF. apply HF, Hin.
Qed.

End Review.

(** ** The pipeline on a service *)

Section Pipeline.
Import PyStr Models GitHubPRTool CodeReviewAgent.
Context {W : Type} (svc : service W).

Lemma fetch_content_spec repo sha fc fi (s : io W) :
  exists s' fc' cs,
    fetch_content svc repo sha fc fi s = (s', inr fc')
    /\ calls s' = calls s ++ cs
    /\ content_paths cs = (if not_removed fi then [filename fi] else [])
    /\ (forall f c, fc' !! f = Some c ->
          fc !! f = Some c \/ In (CallFileContent f true) cs).
Proof.
  unfold fetch_content. destruct (not_removed fi).
  - unfold try_except, bind, perform, ret.
    destruct (get_file_content svc repo (filename fi) sha (world s)) as [w [e|c]];
      simpl.
    + eexists _, _, _. split; [reflexivity|]. simpl.
      split; [reflexivity|]. split; [reflexivity|]. auto.
    + eexists _, _, _. split; [reflexivity|]. simpl.
      split; [reflexivity|]. split; [reflexivity|].
      intros f c' Hf. destruct (decide (filename fi = f)) as [<-|Hne].
      * right. left. reflexivity.
      * rewrite lookup_insert_ne in Hf by exact Hne. auto.
  - exists s, fc, []. unfold ret. rewrite app_nil_r. auto.
Qed.

(** The loop over the changed files never raises; it fetches the content
    of each file that is not removed, in order, and an entry of the
    resulting dict was there before or comes from a fetch that returned. *)
Lemma fetch_loop_spec repo sha fs : forall fc (s : io W),
  exists s' fc' cs,
    mfor (fetch_content svc repo sha) fs fc s = (s', inr fc')
    /\ calls s' = calls s ++ cs
    /\ content_paths cs = map filename (List.filter not_removed fs)
    /\ (forall f c, fc' !! f = Some c ->
          fc !! f = Some c \/ In (CallFileContent f true) cs).
Proof.
  induction fs as [|fi fs IH]; intros fc s.
  - exists s, fc, []. simpl. unfold ret. rewrite app_nil_r. auto.
  - destruct (fetch_content_spec repo sha fc fi s)
      as (s1 & fc1 & cs1 & Hrun1 & Hcalls1 & Hpaths1 & Hfc1).
    destruct (IH fc1 s1) as (s2 & fc2 & cs2 & Hrun2 & Hcalls2 & Hpaths2 & Hfc2).
    exists s2, fc2, (cs1 ++ cs2). simpl. unfold bind. rewrite Hrun1.
    split; [exact Hrun2|].
    split; [rewrite Hcalls2, Hcalls1, app_assoc; reflexivity|].
    split.
    + unfold content_paths in *. rewrite flat_map_app, Hpaths1, Hpaths2.
      destruct (not_removed fi); reflexivity.
    + intros f c Hf. destruct (Hfc2 f c Hf) as [Hin|Hin].
      * destruct (Hfc1 f c Hin) as [?|?]; [auto|]. right. apply in_or_app. auto.
      * right. apply in_or_app. auto.
Qed.

(** A fetch that returns made the three mandatory calls, then the content
    fetches of the loop. *)
Lemma _fetch_pr_data_inv repo pr (s s' : io W) pd :
  _fetch_pr_data svc repo pr s = (s', inr pd) ->
  exists cs,
    calls s' = calls s ++ [CallPrInfo; CallPrFiles; CallPrDiff] ++ cs
    /\ content_paths cs = map filename (List.filter not_removed (pd_files pd))
    /\ pd_changed_lines pd = GitHubService.parse_diff_for_changed_lines (pd_diff pd)
    /\ (forall f c, pd_files_content pd !! f = Some c ->
          In (CallFileContent f true) cs).
Proof.
  unfold _fetch_pr_data, try_except, bind, perform, raise.
  destruct (get_pr_info svc repo pr (world s)) as [w1 [e|j]]; simpl;
    [discriminate|].
  destruct (get_pr_files svc repo pr w1) as [w2 [e|fs]]; simpl; [discriminate|].
  destruct (get_pr_diff svc repo pr w2) as [w3 [e|d]]; simpl; [discriminate|].
  match goal with
  | |- context [mfor ?b fs ∅ ?s0] =>
      destruct (fetch_loop_spec repo (pj_head_sha j) fs ∅ s0)
        as (s1 & fc & cs & Hrun & Hcalls & Hpaths & Hfc)
  end.
  rewrite Hrun. unfold ret. intros [= <- <-]. simpl.
  exists cs. simpl in Hcalls.
  split; [rewrite Hcalls, <- !app_assoc; reflexivity|].
  split; [exact Hpaths|]. split; [reflexivity|].
  intros f c Hf. destruct (Hfc f c Hf) as [Hin|Hin]; [|exact Hin].
  rewrite lookup_empty in Hin. discriminate.
Qed.

Lemma analyze_pr_inv repo pr (s s' : io W) r :
  analyze_pr svc repo pr s = (s', inr r) ->
  exists pd,
    _fetch_pr_data svc repo pr s = (s', inr pd) /\ analyze_fetched pd = inr r.
Proof.
  unfold analyze_pr, try_except, bind, lift, raise.
  destruct (_fetch_pr_data svc repo pr s) as [s1 [e|pd]]; [discriminate|].
  destruct (analyze_fetched pd) as [e|r0] eqn:Hr; [discriminate|].
  intros [= <- <-]. eauto.
Qed.

(** C5: in every result of the pipeline, total_files is the number of
    file reports, total_issues is the sum of their numbers of issues, and
    the four counts by severity add up to total_issues. *)
Theorem C5_summary_counts_add_up repo pr (s s' : io W) (r : AnalysisResults) :
  analyze_pr svc repo pr s = (s', inr r) ->
  total_files (summary r) = Z.of_nat (length (files r))
  /\ total_issues (summary r)
     = sum (map (fun fa => Z.of_nat (length (fa_issues fa))) (files r))
  /\ critical_issues (summary r) + high_issues (summary r)
     + medium_issues (summary r) + low_issues (summary r)
     = total_issues (summary r).
Proof.
  intros Hrun. destruct (analyze_pr_inv _ _ _ _ _ Hrun) as (pd & _ & Hr).
  pose proof (analyze_fetched_counted _ _ Hr) as Hsev.
  unfold analyze_fetched in Hr.
  destruct (for_each _ _ _) as [e|fas]; simpl in Hr; [discriminate|].
  injection Hr as <-. simpl in *.
  split; [reflexivity|]. split; [reflexivity|].
  apply counts_add_up, Hsev.
Qed.

(** C8 (as amended): a fetch that returns has fetched the content of
    every changed file that is not removed, in the order of the file list
    and whatever the file filter says of it; the filter is applied after
    the fetch, and no file that it rejects gets a report. *)
Theorem C8_filter_applies_after_fetch repo pr (s s' : io W) (pd : pr_data) :
  _fetch_pr_data svc repo pr s = (s', inr pd) ->
  (exists cs,
     calls s' = calls s ++ [CallPrInfo; CallPrFiles; CallPrDiff] ++ cs
     /\ content_paths cs = map filename (List.filter not_removed (pd_files pd)))
  /\ (forall r fa,
        analyze_fetched pd = inr r -> In fa (files r) ->
        _should_skip_file (name fa) = false).
Proof.
  intros Hfetch.
  destruct (_fetch_pr_data_inv _ _ _ _ _ Hfetch) as (cs & Hcalls & Hpaths & _).
  split; [eauto|].
  intros r fa Hr Hin.
  assert (Forall (fun fa => _should_skip_file (name fa) = false) (files r)) as HF.
  { revert Hr. apply analyze_fetched_Forall. intros fi acc acc' Hrun.
    destruct (analyze_file_inv _ _ _ _ Hrun)
      as [->|(content & r0 & issues & -> & Hskip & _)]; [auto|].
    right. eexists. split; [reflexivity | exact Hskip]. }
  rewrite List.Forall_forall in HF. apply HF, Hin.
Qed.

(** C10: a changed file whose fetched content is the empty string, or
    for which no content fetch of the run returned (the lookup then falls
    back on the empty string), is skipped: the result is the one of the
    same data without that file, and it has no report of that name. *)
Theorem C10_file_without_content_is_skipped repo pr (s s' : io W)
    (pd : pr_data) (file_name : string) :
  _fetch_pr_data svc repo pr s = (s', inr pd) ->
  (pd_files_content pd !! file_name = Some EmptyString
   \/ (forall cs, calls s' = calls s ++ cs ->
         ~ In (CallFileContent file_name true) cs)) ->
  analyze_fetched pd = analyze_fetched (without_file pd file_name)
  /\ (forall r fa,
        analyze_fetched pd = inr r -> In fa (files r) -> name fa <> file_name).
Proof.
  intros Hfetch Hcase. apply analyze_fetched_without.
  destruct Hcase as [->|Hnone]; [reflexivity|].
  destruct (_fetch_pr_data_inv _ _ _ _ _ Hfetch) as (cs & Hcalls & _ & _ & Hfc).
  destruct (pd_files_content pd !! file_name) as [c|] eqn:Hc; [|reflexivity].
  exfalso. apply (Hnone _ Hcalls). apply in_or_app. right. eapply Hfc, Hc.
Qed.

End Pipeline.

(** ** The pipeline on concrete services *)

Section PipelineExamples.
Import PyStr Models GitHubPRTool CodeReviewAgent.

Lemma C5_summary_counts_add_up_witness :
  exists r,
    snd (analyze_pr Demo.svc_partial Demo.repo 1 Demo.start) = inr r
    /\ total_files (summary r) = Z.of_nat (length (files r))
    /\ total_issues (summary r)
       = sum (map (fun fa => Z.of_nat (length (fa_issues fa))) (files r))
    /\ critical_issues (summary r) + high_issues (summary r)
       + medium_issues (summary r) + low_issues (summary r)
       = total_issues (summary r).
Proof.
  eexists. split; [vm_compute; reflexivity|].
  eapply (C5_summary_counts_add_up Demo.svc_partial Demo.repo 1 Demo.start).
  vm_compute. reflexivity.
Defined.

Lemma C8_filter_applies_after_fetch_witness :
  exists s' pd,
    _fetch_pr_data Demo.svc_image Demo.repo 1 Demo.start = (s', inr pd)
    /\ (exists cs,
          calls s' = calls Demo.start ++ [CallPrInfo; CallPrFiles; CallPrDiff] ++ cs
          /\ content_paths cs
             = map filename (List.filter not_removed (pd_files pd)))
    /\ (forall r fa,
          analyze_fetched pd = inr r -> In fa (files r) ->
          _should_skip_file (name fa) = false).
Proof.
  eexists _, _. split; [vm_compute; reflexivity|].
  eapply (C8_filter_applies_after_fetch Demo.svc_image Demo.repo 1 Demo.start).
  vm_compute. reflexivity.
Defined.

(** C8 as stated fails: the filter rejects image.png, and its content is
    fetched all the same. *)
Lemma C8_rejected_file_is_fetched :
  _should_skip_file "image.png" = true
  /\ calls (fst (_fetch_pr_data Demo.svc_image Demo.repo 1 Demo.start))
     = [CallPrInfo; CallPrFiles; CallPrDiff; CallFileContent "image.png" true].
Proof. split; vm_compute; reflexivity. Qed.

Lemma C10_file_without_content_is_skipped_witness :
  exists s' pd,
    _fetch_pr_data Demo.svc_partial Demo.repo 1 Demo.start = (s', inr pd)
    /\ analyze_fetched pd = analyze_fetched (without_file pd "b.py")
    /\ (forall r fa,
          analyze_fetched pd = inr r -> In fa (files r) -> name fa <> "b.py").
Proof.
  eexists _, _. split; [vm_compute; reflexivity|].
  eapply (C10_file_without_content_is_skipped
            Demo.svc_partial Demo.repo 1 Demo.start).
  - vm_compute. reflexivity.
  - right. intros cs Hcs. simpl in Hcs. subst cs.
    intros [H|[H|[H|[H|[H|[]]]]]]; discriminate.
Defined.

End PipelineExamples.

(** ** The job *)

Section Job.
Import Models GitHubPRTool Tasks.
Context {W Dump : Type}.
Variable github : option string -> service W.
Variable model_dump_json : AnalysisResults -> res string.
Variable model_dump : AnalysisResults -> res Dump.

Lemma mandatory_fetch_raises_run svc repo pr (n : io W) e :
  mandatory_fetch_raises svc repo pr (world n) e ->
  exists n', CodeReviewAgent.analyze_pr svc repo pr n = (n', inl e).
Proof.
  intros H.
  unfold CodeReviewAgent.analyze_pr, _fetch_pr_data, try_except, bind, perform, raise.
  destruct H as [w1 H1 | w1 j w2 H1 H2 | w1 j w2 fs w3 H1 H2 H3];
    rewrite H1; simpl; [eauto|..];
    rewrite H2; simpl; [eauto|];
    rewrite H3; simpl; eauto.
Qed.

(** A run that raises before the record is marked completed leaves the
    record failed with the text of the exception; the results column is
    not written. *)
Lemma failed_run_recorded id repo pr tok (s : worker W) t e :
  db s !! id = Some t ->
  (exists n', CodeReviewAgent.analyze_pr (github tok) repo pr (net s) = (n', inl e))
  \/ (exists n' r,
        CodeReviewAgent.analyze_pr (github tok) repo pr (net s) = (n', inr r)
        /\ model_dump_json r = inl e) ->
  exists s',
    analyze_pr_task github model_dump_json model_dump id repo pr tok s = (s', inl e)
    /\ db s' !! id
       = Some (MkTask (task_id t) (repo_url t) (pr_number t) FAILED (results t)
                 (Some (exn_str e))).
Proof.
  intros Hdb Hcase.
  unfold analyze_pr_task, bind, query, try_except, update_record, update_state,
    on_net, lift, raise.
  rewrite Hdb. simpl.
  destruct Hcase as [(n' & Hrun) | (n' & r & Hrun & Hjson)]; rewrite Hrun; simpl.
  - eexists. split; [reflexivity|]. simpl.
    rewrite !lookup_alter_eq, Hdb. reflexivity.
  - rewrite Hjson. simpl.
    eexists. split; [reflexivity|]. simpl.
    rewrite !lookup_alter_eq, Hdb. reflexivity.
Qed.

(** C4 (as amended): a job that was accepted at submission and whose
    run raises in one of the three mandatory fetches, or in the JSON
    serialization of the result, ends with its record in status failed,
    with the text of the exception as error message (empty when that text
    is empty) and no result stored; the submitter was answered before, with
    the pending task, and the exception goes to the worker alone. *)
Theorem C4_failed_run_is_recorded (http_url : string -> option string)
    (commit_ok : AnalysisTask -> bool) (apply_async_ok : Main.queued -> bool)
    (uuid : string) (b : Main.body) (a a' : Main.app)
    (id : string) (st : TaskStatus) (msg : string)
    (repo : string) (pr : Z) (tok : option string) (s : worker W) (e : exn) :
  Main.analyze_pr http_url commit_ok apply_async_ok uuid b a
  = (a', Main.TaskResponse id st msg) ->
  db s = Main.app_db a' ->
  mandatory_fetch_raises (github tok) repo pr (world (net s)) e
  \/ serialization_raises model_dump_json (github tok) repo pr (net s) e ->
  id = uuid /\ st = PENDING
  /\ exists s' t',
       analyze_pr_task github model_dump_json model_dump id repo pr tok s
       = (s', inl e)
       /\ db s' !! id = Some t'
       /\ status t' = FAILED
       /\ error_message t' = Some (exn_str e)
       /\ results t' = None.
Proof.
  intros Hsubmit Hdb Hcase.
  unfold Main.analyze_pr, Main.handler in Hsubmit.
  destruct (Main.validate http_url b) as [request|]; [|discriminate].
  destruct (Main.app_db a !! uuid); [discriminate|].
  destruct (commit_ok _); [|discriminate].
  destruct (apply_async_ok _); [|discriminate].
  injection Hsubmit as <- <- <- _. split; [reflexivity|]. split; [reflexivity|].
  simpl in Hdb.
  destruct (failed_run_recorded uuid repo pr tok s
              (MkTask uuid (Main.req_repo_url request) (Main.req_pr_number request)
                 PENDING None None) e) as (s' & Hrun & Hrec).
  - rewrite Hdb. apply lookup_insert_eq.
  - destruct Hcase as [Hm | (n' & r & Hrun & Hjson)].
    + left. apply mandatory_fetch_raises_run, Hm.
    + right. eauto.
  - exists s'. eexists. split; [exact Hrun|]. split; [exact Hrec|]. auto.
Qed.

End Job.

Section Submission.
Import Models Tasks Main.




End Submission.

Section JobExamples.
Import Models GitHubPRTool Tasks.

Lemma C4_failed_run_is_recorded_witness :
  "job-1" = "job-1" /\ PENDING = PENDING
  /\ exists s' t',
       analyze_pr_task (fun _ => Demo.svc_not_found) Demo.dump_json Demo.dump
         "job-1" Demo.repo 1 None Demo.worker_start
       = (s', inl Demo.status_error)
       /\ db s' !! "job-1" = Some t'
       /\ status t' = FAILED
       /\ error_message t' = Some (exn_str Demo.status_error)
       /\ results t' = None.
Proof.
  eapply (C4_failed_run_is_recorded (fun _ => Demo.svc_not_found)
            Demo.dump_json Demo.dump Main.scheme_only Main.sqlite_integer
            Main.broker_up "job-1"
            (Main.Body Demo.repo 1 None) Demo.app_start).
  - vm_compute. reflexivity.
  - vm_compute. reflexivity.
  - left. eapply diff_raises; reflexivity.
Defined.

(** C4 as stated fails: the diff fetch raises a timeout whose text is
    empty, and the error message of the failed record is the empty
    string. *)
Lemma C4_error_message_can_be_empty :
  mandatory_fetch_raises Demo.svc_timeout Demo.repo 1 tt Demo.read_timeout
  /\ db (fst (analyze_pr_task (fun _ => Demo.svc_timeout) Demo.dump_json Demo.dump
                "job-1" Demo.repo 1 None Demo.worker_start)) !! "job-1"
     = Some (MkTask "job-1" Demo.repo 1 FAILED None (Some EmptyString)).
Proof.
  split; [eapply diff_raises; reflexivity|].
  vm_compute. reflexivity.
Qed.

End JobExamples.


(** * Further properties of the code *)

(** ** The diff parser: keys and windows *)

Section DiffParserMore.
Import PyStr GitHubService DiffLines.

Lemma step_dom s line :
  dom (changed_lines (step s line))
  = match header_path line with
    | Some p => {[ p ]} ∪ dom (changed_lines s)
    | None => dom (changed_lines s)
    end.
Proof.
  unfold step, header_path.
  destruct (startswith "diff --git" line).
  - destruct (search_b_path line) as [p|]; [|reflexivity].
    simpl. apply dom_insert_L.
  - destruct (startswith "@@" line && cursor_set (current_file s)); [|reflexivity].
    destruct (search_hunk line) as [[g1 g2]|]; [|reflexivity].
    destruct (current_file s) as [f|]; [|reflexivity].
    simpl. apply dom_alter_L.
Qed.

(** The files of the result are the paths found in the file headers of
    the diff: a file has an entry, possibly empty, exactly when some line
    starting with "diff --git" gives its path. *)
Theorem parse_diff_keys (diff_content : string) :
  dom (parse_diff_for_changed_lines diff_content)
  =@{gset string} list_to_set (omap header_path (split newline diff_content)).
Proof.
  unfold parse_diff_for_changed_lines.
  induction (split newline diff_content) as [|line ls IH] using rev_ind.
  - simpl. apply dom_empty_L.
  - rewrite parse_lines_snoc, step_dom, omap_app, list_to_set_app_L, IH. simpl.
    destruct (header_path line) as [p|]; simpl; set_solver.
Qed.

Lemma span_all p s : all_chars p (fst (span p s)) = true.
Proof.
  induction s as [|c s IH]; simpl; [reflexivity|].
  destruct (p c) eqn:Hc; [|reflexivity].
  destruct (span p s) as [a b]. simpl in *. rewrite Hc, IH. reflexivity.
Qed.

Lemma digit_val_nonneg c : is_digit c = true -> 0 <= digit_val c.
Proof.
  unfold is_digit, digit_val. intros H.
  apply andb_true_iff in H as [H _]. apply Nat.leb_le in H. lia.
Qed.

Lemma int_acc_nonneg s : forall acc,
  all_chars is_digit s = true -> 0 <= acc -> 0 <= int_acc acc s.
Proof.
  induction s as [|c s IH]; intros acc Hs Hacc; simpl in *; [exact Hacc|].
  apply andb_true_iff in Hs as [Hc Hs].
  apply IH; [exact Hs|]. pose proof (digit_val_nonneg c Hc). lia.
Qed.

Lemma search_hunk_digits line g1 g2 :
  search_hunk line = Some (g1, g2) -> all_chars is_digit g1 = true.
Proof.
  induction line as [|c rest IH]; simpl; [discriminate|].
  destruct (Ascii.eqb c "+"); [|exact IH].
  pose proof (span_all is_digit rest) as Hd.
  destruct (span is_digit rest) as [[|d1 ds] after]; [exact IH|].
  simpl in Hd.
  destruct after as [|d after].
  - intros [= <- <-]. exact Hd.
  - destruct (Ascii.eqb d ",").
    + destruct (span is_digit after) as [[|e1 es] t]; intros [= <- <-]; exact Hd.
    + intros [= <- <-]. exact Hd.
Qed.

Lemma parse_lines_windows ls : forall p l n,
  changed_lines (parse_lines ls) !! p = Some l ->
  In n l ->
  exists line g1 g2,
    In line ls
    /\ startswith "@@" line = true
    /\ search_hunk line = Some (g1, g2)
    /\ 0 <= int g1 <= n
    /\ n < int g1 + hunk_count g2.
Proof.
  induction ls as [|line ls IH] using rev_ind; intros p l n Hl Hn.
  - simpl in Hl. rewrite lookup_empty in Hl. discriminate.
  - assert (forall l0, changed_lines (parse_lines ls) !! p = Some l0 -> In n l0 ->
              exists line0 g1 g2,
                In line0 (ls ++ [line])
                /\ startswith "@@" line0 = true
                /\ search_hunk line0 = Some (g1, g2)
                /\ 0 <= int g1 <= n
                /\ n < int g1 + hunk_count g2) as Hold.
    { intros l0 Hl0 Hn0.
      destruct (IH p l0 n Hl0 Hn0) as (line0 & g1 & g2 & Hin & H).
      exists line0, g1, g2. split; [apply in_or_app; auto | exact H]. }
    rewrite parse_lines_snoc in Hl. unfold step in Hl.
    destruct (startswith "diff --git" line).
    + destruct (search_b_path line) as [q|]; [|eauto].
      simpl in Hl. destruct (decide (q = p)) as [->|Hne].
      * rewrite lookup_insert_eq in Hl. injection Hl as <-. destruct Hn.
      * rewrite lookup_insert_ne in Hl by exact Hne. eauto.
    + destruct (startswith "@@" line && cursor_set (current_file (parse_lines ls)))
        eqn:Hat; [|eauto].
      apply andb_true_iff in Hat as [Hat _].
      destruct (search_hunk line) as [[g1 g2]|] eqn:Hh; [|eauto].
      destruct (current_file (parse_lines ls)) as [f|]; [|eauto].
      simpl in Hl. destruct (decide (f = p)) as [->|Hne].
      * rewrite lookup_alter_eq in Hl.
        destruct (changed_lines (parse_lines ls) !! p) as [l0|] eqn:Hl0;
          [|discriminate].
        simpl in Hl. injection Hl as <-.
        apply in_app_or in Hn as [Hn|Hn]; [eauto|].
        exists line, g1, g2. split; [apply in_or_app; right; left; reflexivity|].
        split; [exact Hat|]. split; [exact Hh|].
        apply list_elem_of_In in Hn. apply elem_of_seqZ in Hn.
        pose proof (int_acc_nonneg g1 0 (search_hunk_digits _ _ _ Hh) (Z.le_refl 0))
          as H.
        fold (int g1) in H. lia.
      * rewrite lookup_alter_ne in Hl by exact Hne. eauto.
Qed.

(** Every line number recorded for a file lies in the window of a hunk
    header of the diff: it is at least the start that the header names, which
    is not negative, and below that start plus the count (1 when the header
    names none). *)
Theorem parse_diff_windows (diff_content p : string) (l : list Z) (n : Z) :
  parse_diff_for_changed_lines diff_content !! p = Some l ->
  In n l ->
  exists line g1 g2,
    In line (split newline diff_content)
    /\ startswith "@@" line = true
    /\ search_hunk line = Some (g1, g2)
    /\ 0 <= int g1 <= n
    /\ n < int g1 + hunk_count g2.
Proof.
  unfold parse_diff_for_changed_lines. intros Hl Hn.
  eapply parse_lines_windows; eassumption.
Qed.

Lemma parse_diff_windows_witness :
  exists line g1 g2,
    In line (split newline scenario_A)
    /\ startswith "@@" line = true
    /\ search_hunk line = Some (g1, g2)
    /\ 0 <= int g1 <= 3
    /\ 3 < int g1 + hunk_count g2.
Proof.
  apply (parse_diff_windows scenario_A "test.py" [1; 2; 3; 4] 3).
  - vm_compute. reflexivity.
  - simpl. auto.
Defined.


(** The path of a file header is what follows the leftmost "b/" of the
    line, up to the end of the line: the search does not look for the second
    path of the header, so a first path with a directory whose name ends in b
    is cut in the middle. *)
Theorem search_b_path_leftmost (pre rest : string) :
  contains "b/" pre = false ->
  rest <> EmptyString ->
  search_b_path (pre +:+ "b/" +:+ rest) = Some rest.
Proof.
  intros Hpre Hrest. induction pre as [|a pre IH].
  - destruct rest as [|c r]; [congruence|]. reflexivity.
  - cbn [contains] in Hpre. apply orb_false_iff in Hpre as [Hhead Htail].
    specialize (IH Htail).
    change (String a pre +:+ "b/" +:+ rest)
      with (String a (pre +:+ "b/" +:+ rest)).
    destruct pre as [|c' pre'].
    + destruct rest as [|c r]; [congruence|].
      change (search_b_path (String a (String "b" (String "/" (String c r))))
              = Some (String c r)).
      cbn [search_b_path]. rewrite Ascii.eqb_refl.
      replace (Ascii.eqb a "b" && Ascii.eqb "b" "/") with false
        by (rewrite andb_false_r; reflexivity).
      reflexivity.
    + rewrite !prefix_cons in Hhead.
      replace (String.prefix EmptyString pre') with true in Hhead
        by (destruct pre'; reflexivity).
      assert (exists x y, pre' +:+ "b/" +:+ rest = String x y) as (x & y & Hxy).
      { destruct pre'; simpl; eauto. }
      change (String c' pre' +:+ "b/" +:+ rest)
        with (String c' (pre' +:+ "b/" +:+ rest)) in *.
      rewrite Hxy in *. cbn [search_b_path] in *.
      assert (Ascii.eqb a "b" && Ascii.eqb c' "/" = false) as ->.
      { rewrite (Ascii.eqb_sym a), (Ascii.eqb_sym c').
        destruct (Ascii.eqb "b" a), (Ascii.eqb "/" c'); simpl in *; congruence. }
      exact IH.
Qed.

Lemma search_b_path_leftmost_witness :
  search_b_path ("diff --git a/li" +:+ "b/" +:+ "x.py b/lib/x.py")
  = Some "x.py b/lib/x.py".
Proof.
  apply (search_b_path_leftmost "diff --git a/li" "x.py b/lib/x.py").
  - reflexivity.
  - discriminate.
Defined.

End DiffParserMore.

(** ** The line analyzer: what it returns and when *)

Section LineAnalyzerMore.
Import PyStr CodeAnalysisTool.

Ltac case_ifs :=
  repeat match goal with
         | |- context [if ?b then _ else _] => destruct b
         end.

Lemma for_each_total {A B} (Q : A -> Prop) (body : B -> A -> res B) xs :
  (forall acc x, Q x -> exists acc', body acc x = inr acc') ->
  Forall Q xs ->
  forall acc, exists out, for_each body xs acc = inr out.
Proof.
  intros Hbody HQ. induction HQ as [|x xs Hx _ IH]; intros acc; simpl; [eauto|].
  destruct (Hbody acc x Hx) as [acc' ->]. simpl. apply IH.
Qed.

Lemma py_index_in_range {A} (l : list A) i :
  - Z.of_nat (length l) <= i < Z.of_nat (length l) ->
  exists x, py_index l i = inr x.
Proof.
  intros Hi. unfold py_index.
  set (n := Z.of_nat (length l)) in *.
  set (j := if i <? 0 then i + n else i).
  assert (0 <= j < n) as Hj.
  { unfold j. destruct (i <? 0) eqn:E; [apply Z.ltb_lt in E | apply Z.ltb_ge in E]; lia. }
  replace ((0 <=? j) && (j <? n)) with true
    by (symmetry; apply andb_true_iff; split; [apply Z.leb_le | apply Z.ltb_lt]; lia).
  destruct (lookup_lt_is_Some_2 l (Z.to_nat j)) as [x ->]; [unfold n in Hj; lia|].
  eauto.
Qed.

Lemma run_body_returns lines ext acc n :
  (0 < length lines)%nat -> 0 <= n ->
  exists acc', run_body lines ext acc n = inr acc'.
Proof.
  intros Hlen Hn. unfold run_body.
  destruct (n <=? Z.of_nat (length lines)) eqn:E; [|eauto].
  apply Z.leb_le in E.
  destruct (py_index_in_range lines (n - 1)) as [line ->]; [lia|].
  simpl. eauto.
Qed.

Lemma lines_to_analyze_nonneg cl lines :
  Forall (fun n => 0 <= n) (default [] cl) ->
  Forall (fun n => 0 <= n) (lines_to_analyze cl lines).
Proof.
  intros H. unfold lines_to_analyze.
  assert (Forall (fun n => 0 <= n) (seqZ 1 (Z.of_nat (length lines)))) as Hall.
  { apply List.Forall_forall. intros n Hn.
    apply list_elem_of_In in Hn. apply elem_of_seqZ in Hn. lia. }
  destruct cl as [[|n l]|]; simpl in H; auto.
Qed.

Lemma run_loop_returns content file cl :
  Forall (fun n => 0 <= n) (default [] cl) ->
  exists out,
    for_each (run_body (split newline content) (file_extension_of file))
      (lines_to_analyze cl (split newline content)) [] = inr out.
Proof.
  intros H. apply for_each_total with (Q := fun n => 0 <= n).
  - intros acc n Hn. apply run_body_returns; [apply split_length_pos | exact Hn].
  - apply lines_to_analyze_nonneg, H.
Qed.

(** The analyzer returns, with no exception, whenever no listed line
    number is negative (and so on every list the diff parser produces, and
    when no list is given): the line split of a content is never empty, so
    the entry 0 always finds a last line. *)
Theorem _run_returns (file_content file_name : string) (cl : option (list Z)) :
  Forall (fun n => 0 <= n) (default [] cl) ->
  exists r, _run file_content file_name cl = inr r.
Proof.
  intros H. unfold _run.
  destruct (run_loop_returns file_content file_name cl H) as [out ->].
  simpl. eauto.
Qed.

Lemma _run_returns_witness :
  exists r, _run Demo.two_lines "a.py" (Some [0; 2; 7]) = inr r.
Proof.
  apply (_run_returns Demo.two_lines "a.py" (Some [0; 2; 7])).
  simpl. repeat constructor; lia.
Defined.

Lemma check_line_line line n ext :
  Forall (fun i => issue_line i = n) (check_line line n ext).
Proof.
  unfold check_line. repeat apply Forall_app_2.
  - unfold _check_style_issues. case_ifs; simpl; repeat constructor.
  - unfold _check_potential_bugs. case_ifs; simpl; repeat constructor.
  - unfold _check_performance_issues. case_ifs; simpl; repeat constructor.
  - unfold _check_best_practices. case_ifs; simpl; repeat constructor.
Qed.

(** Every issue of a result is on a line number that was to be analyzed
    (a listed one, or any line of the file when the list is empty or absent)
    and that is not above the number of lines of the file. *)
Theorem _run_issue_lines (file_content file_name : string)
    (cl : option (list Z)) (r : run_result) (i : issue) :
  _run file_content file_name cl = inr r ->
  In i (issues r) ->
  In (issue_line i) (lines_to_analyze cl (split newline file_content))
  /\ issue_line i <= total_lines r.
Proof.
  unfold _run.
  set (lines := split newline file_content).
  set (todo := lines_to_analyze cl lines).
  destruct (for_each _ _ _) as [e|out] eqn:Hloop; simpl; [discriminate|].
  intros [= <-]. simpl. revert i. apply List.Forall_forall.
  revert Hloop.
  apply (for_each_inv
           (fun acc => Forall (fun i => In (issue_line i) todo
                                        /\ issue_line i <= Z.of_nat (length lines)) acc)
           (fun n => In n todo)).
  - intros acc n acc' Hacc Hn. unfold run_body.
    destruct (n <=? Z.of_nat (length lines)) eqn:E; [|intros [= <-]; exact Hacc].
    apply Z.leb_le in E.
    destruct (py_index lines (n - 1)) as [e|line]; simpl; [discriminate|].
    intros [= <-]. apply Forall_app_2; [exact Hacc|].
    eapply Forall_impl; [apply check_line_line|].
    intros i Hi. simpl in Hi. rewrite Hi. auto.
  - apply List.Forall_forall. auto.
  - constructor.
Qed.

Lemma _run_issue_lines_witness :
  In 1 (lines_to_analyze (Some [1; 2]) (split newline scenario_B))
  /\ 1 <= 2.
Proof.
  apply (_run_issue_lines scenario_B "a.py" (Some [1; 2])
           (RunResult "a.py"
              [Issue "bug" 1 "Use 'is None' instead of '== None'"
                 "Replace '== None' with 'is None'" "medium"] 2 2)
           (Issue "bug" 1 "Use 'is None' instead of '== None'"
              "Replace '== None' with 'is None'" "medium")).
  - vm_compute. reflexivity.
  - left. reflexivity.
Defined.

Lemma check_line_other_language line n ext :
  String.eqb ext "py" = false ->
  Forall (fun i => issue_type i = "style" /\ severity i = "low")
    (check_line line n ext).
Proof.
  intros Hext. unfold check_line. repeat apply Forall_app_2.
  - unfold _check_style_issues. rewrite Hext. case_ifs; simpl; repeat constructor.
  - unfold _check_potential_bugs. rewrite Hext. constructor.
  - unfold _check_performance_issues. rewrite Hext. constructor.
  - unfold _check_best_practices. rewrite Hext. constructor.
Qed.

(** On a file whose extension is not py, whatever its content, the
    analyzer reports style issues of severity low only (long lines and
    trailing whitespace): no bug, performance or best-practice rule runs. *)
Theorem _run_other_language (file_content file_name : string)
    (cl : option (list Z)) (r : run_result) (i : issue) :
  file_extension_of file_name <> "py" ->
  _run file_content file_name cl = inr r ->
  In i (issues r) ->
  issue_type i = "style" /\ severity i = "low".
Proof.
  intros Hext. apply String.eqb_neq in Hext. unfold _run.
  destruct (for_each _ _ _) as [e|out] eqn:Hloop; simpl; [discriminate|].
  intros [= <-]. simpl. revert i. apply List.Forall_forall.
  revert Hloop. apply for_each_inv with (Q := fun _ => True).
  - intros acc n acc' Hacc _. unfold run_body.
    destruct (n <=? _); [|intros [= <-]; exact Hacc].
    destruct (py_index _ _) as [e|line]; simpl; [discriminate|].
    intros [= <-]. apply Forall_app_2; [exact Hacc|].
    apply check_line_other_language, Hext.
  - apply Forall_trivial.
  - constructor.
Qed.

Lemma _run_other_language_witness :
  issue_type (Issue "style" 2 "Trailing whitespace" "Remove trailing whitespace" "low")
  = "style"
  /\ severity (Issue "style" 2 "Trailing whitespace" "Remove trailing whitespace" "low")
     = "low".
Proof.
  apply (_run_other_language Demo.two_lines "notes.txt" None
           (RunResult "notes.txt"
              [Issue "style" 2 "Trailing whitespace" "Remove trailing whitespace" "low"]
              2 2)).
  - vm_compute. discriminate.
  - vm_compute. reflexivity.
  - left. reflexivity.
Defined.

Lemma for_each_run_body_acc lines ext xs : forall acc,
  for_each (run_body lines ext) xs acc
  = rbind (for_each (run_body lines ext) xs []) (fun out => inr (acc ++ out)).
Proof.
  induction xs as [|n xs IH]; intros acc; simpl; [rewrite app_nil_r; reflexivity|].
  unfold run_body at 1 3.
  destruct (n <=? Z.of_nat (length lines)).
  - destruct (py_index lines (n - 1)) as [e|line]; simpl; [reflexivity|].
    rewrite (IH (acc ++ check_line line n ext)), (IH (check_line line n ext)).
    destruct (for_each (run_body lines ext) xs []); simpl; [reflexivity|].
    rewrite app_assoc. reflexivity.
  - simpl. apply IH.
Qed.

(** The issues come in the order of the list: the run on two non-empty
    lists one after the other returns the issues of the first followed by
    those of the second, so a line number listed twice is reported twice. *)
Theorem _run_app (file_content file_name : string) (l1 l2 : list Z)
    (r1 r2 : run_result) :
  l1 <> [] -> l2 <> [] ->
  _run file_content file_name (Some l1) = inr r1 ->
  _run file_content file_name (Some l2) = inr r2 ->
  exists r,
    _run file_content file_name (Some (l1 ++ l2)) = inr r
    /\ issues r = issues r1 ++ issues r2
    /\ analyzed_lines r = analyzed_lines r1 + analyzed_lines r2.
Proof.
  intros H1 H2. unfold _run.
  assert (forall l, l <> [] ->
            lines_to_analyze (Some l) (split newline file_content) = l) as Hl.
  { intros [|n l] Hne; [congruence | reflexivity]. }
  rewrite (Hl l1 H1), (Hl l2 H2), (Hl (l1 ++ l2)) by (destruct l1; [congruence | discriminate]).
  rewrite for_each_app.
  destruct (for_each _ l1 []) as [e|out1]; simpl; [discriminate|].
  rewrite (for_each_run_body_acc _ _ l2 out1).
  destruct (for_each _ l2 []) as [e|out2]; simpl; [discriminate|].
  intros [= <-] [= <-]. eexists. split; [reflexivity|]. simpl.
  split; [reflexivity|]. rewrite length_app. lia.
Qed.

Lemma _run_app_witness :
  exists r,
    _run scenario_B "a.py" (Some ([1] ++ [1])) = inr r
    /\ issues r
       = [Issue "bug" 1 "Use 'is None' instead of '== None'"
            "Replace '== None' with 'is None'" "medium"]
         ++ [Issue "bug" 1 "Use 'is None' instead of '== None'"
               "Replace '== None' with 'is None'" "medium"]
    /\ analyzed_lines r = 1 + 1.
Proof.
  apply (_run_app scenario_B "a.py" [1] [1]
           (RunResult "a.py"
              [Issue "bug" 1 "Use 'is None' instead of '== None'"
                 "Replace '== None' with 'is None'" "medium"] 2 1)
           (RunResult "a.py"
              [Issue "bug" 1 "Use 'is None' instead of '== None'"
                 "Replace '== None' with 'is None'" "medium"] 2 1));
    try discriminate; vm_compute; reflexivity.
Defined.

End LineAnalyzerMore.

(** ** The extension of a file name and the file filter *)

Section Names.
Import PyStr CodeAnalysisTool CodeReviewAgent.

Lemma prefix_empty s : String.prefix EmptyString s = true.
Proof. destruct s; reflexivity. Qed.

Lemma prefix_app sub post : String.prefix sub (sub +:+ post) = true.
Proof.
  induction sub as [|c sub IH]; [apply prefix_empty|].
  change (String c sub +:+ post) with (String c (sub +:+ post)).
  rewrite prefix_cons, Ascii.eqb_refl. exact IH.
Qed.

Lemma contains_prefix sub s : String.prefix sub s = true -> contains sub s = true.
Proof. intros H. destruct s; cbn [contains]; rewrite H; reflexivity. Qed.

Lemma contains_app sub pre post : contains sub (pre +:+ sub +:+ post) = true.
Proof.
  induction pre as [|c pre IH].
  - apply contains_prefix. exact (prefix_app sub post).
  - change (String c pre +:+ sub +:+ post) with (String c (pre +:+ sub +:+ post)).
    cbn [contains]. rewrite IH. apply orb_true_r.
Qed.

Lemma lower_app a b : lower (a +:+ b) = lower a +:+ lower b.
Proof.
  unfold lower. induction a as [|c a IH]; [reflexivity|].
  change (String c a +:+ b) with (String c (a +:+ b)).
  cbn [map_chars]. rewrite IH. reflexivity.
Qed.

Lemma length_append a b :
  String.length (a +:+ b) = (String.length a + String.length b)%nat.
Proof. induction a as [|c a IH]; simpl; [reflexivity | rewrite IH; reflexivity]. Qed.

Lemma substring_all s : String.substring 0 (String.length s) s = s.
Proof. induction s as [|c s IH]; simpl; [reflexivity | rewrite IH; reflexivity]. Qed.

Lemma substring_append pre suf :
  String.substring (String.length pre) (String.length suf) (pre +:+ suf) = suf.
Proof. induction pre as [|c pre IH]; simpl; [apply substring_all | exact IH]. Qed.

Lemma endswith_app pre suf : endswith suf (pre +:+ suf) = true.
Proof.
  unfold endswith. rewrite length_append.
  replace (String.length pre + String.length suf - String.length suf)%nat
    with (String.length pre) by lia.
  rewrite substring_append, String.eqb_refl, andb_true_r.
  apply Nat.leb_le. lia.
Qed.

(** A name that ends in a listed extension is rejected by the filter,
    whatever the case of its letters: Photo.PNG is rejected as photo.png
    is. *)
Theorem _should_skip_file_extension (stem e : string) :
  In (lower e) skip_extensions ->
  _should_skip_file (stem +:+ e) = true.
Proof.
  intros Hin. unfold _should_skip_file. apply orb_true_iff. left.
  apply existsb_exists. exists (lower e). split; [exact Hin|].
  rewrite lower_app. apply endswith_app.
Qed.

Lemma _should_skip_file_extension_witness :
  _should_skip_file ("Photo" +:+ ".PNG") = true.
Proof.
  apply (_should_skip_file_extension "Photo" ".PNG").
  vm_compute. auto.
Defined.

(** A name in which a listed directory pattern occurs anywhere is
    rejected by the filter: the pattern is looked for as a substring, so a
    directory whose name only ends in the pattern (rebuild/ for build/) is
    rejected too. *)
Theorem _should_skip_file_pattern (pre pattern post : string) :
  In pattern skip_patterns ->
  _should_skip_file (pre +:+ pattern +:+ post) = true.
Proof.
  intros Hin. unfold _should_skip_file. apply orb_true_iff. right.
  apply existsb_exists. exists pattern. split; [exact Hin|].
  apply contains_app.
Qed.

Lemma _should_skip_file_pattern_witness :
  _should_skip_file ("src/re" +:+ "build/" +:+ "index.py") = true.
Proof.
  apply (_should_skip_file_pattern "src/re" "build/" "index.py").
  vm_compute. auto 10.
Defined.

Lemma contains_char_cons c a s :
  contains (String c EmptyString) (String a s)
  = Ascii.eqb c a || contains (String c EmptyString) s.
Proof. cbn [contains]. rewrite prefix_cons, prefix_empty, andb_true_r. reflexivity. Qed.

Lemma split_no_sep sep s :
  contains (String sep EmptyString) s = false -> split sep s = [s].
Proof.
  induction s as [|a s IH]; [reflexivity|].
  rewrite contains_char_cons. intros H. apply orb_false_iff in H as [Ha Hs].
  cbn [split]. rewrite Ascii.eqb_sym, Ha, (IH Hs). reflexivity.
Qed.

Lemma split_cons_sep sep e : split sep (String sep e) = EmptyString :: split sep e.
Proof. cbn [split]. rewrite Ascii.eqb_refl. reflexivity. Qed.

Lemma last_split_app sep stem e d :
  List.last (split sep (stem +:+ String sep e)) d = List.last (split sep e) d
  /\ (2 <= length (split sep (stem +:+ String sep e)))%nat.
Proof.
  induction stem as [|a stem [IHlast IHlen]].
  - change (EmptyString +:+ String sep e) with (String sep e).
    rewrite split_cons_sep. pose proof (split_length_pos sep e) as Hpos.
    destruct (split sep e) as [|h t] eqn:E; [simpl in Hpos; lia|].
    split; [reflexivity | simpl; lia].
  - change (String a stem +:+ String sep e) with (String a (stem +:+ String sep e)).
    cbn [split].
    destruct (split sep (stem +:+ String sep e)) as [|h [|h' t]] eqn:E;
      try (simpl in IHlen; lia).
    destruct (Ascii.eqb a sep); split; try exact IHlast; simpl; lia.
Qed.

(** The extension of a file name is what follows its last dot, in lower
    case, so A.PY is analyzed as Python; a name with no dot is its own
    extension, so a file named py is analyzed as Python too. *)
Theorem file_extension_of_last_dot (stem ext : string) :
  contains "." ext = false ->
  file_extension_of (stem +:+ "." +:+ ext) = lower ext
  /\ file_extension_of ext = lower ext.
Proof.
  intros Hext. unfold file_extension_of. split.
  - change ("." +:+ ext) with (String "." ext).
    rewrite (proj1 (last_split_app "." stem ext EmptyString)).
    rewrite (split_no_sep "." ext Hext). reflexivity.
  - rewrite (split_no_sep "." ext Hext). reflexivity.
Qed.

Lemma file_extension_of_last_dot_witness :
  file_extension_of ("archive.tar" +:+ "." +:+ "PY") = lower "PY"
  /\ file_extension_of "PY" = lower "PY".
Proof.
  apply (file_extension_of_last_dot "archive.tar" "PY"). reflexivity.
Defined.

End Names.

(** ** The review: when it raises and what it reports *)

Section ReviewMore.
Import PyStr Models GitHubPRTool CodeReviewAgent Tasks.




Context {W : Type} (svc : service W).



End ReviewMore.

Section Reports.
Import PyStr Models GitHubPRTool CodeReviewAgent ReviewFacts.

Lemma analyze_file_adds pd acc fi acc' :
  analyze_file pd acc fi = inr acc' ->
  acc' = acc
  \/ exists issues,
       acc' = acc ++ [MkFileAnalysis (filename fi) issues]
       /\ issues <> []
       /\ kept fi = true.
Proof.
  unfold analyze_file, kept, not_removed.
  destruct (String.eqb (status fi) "removed"); [intros [= <-]; auto|].
  destruct (_should_skip_file (filename fi)); [intros [= <-]; auto|].
  destruct (negb _); [intros [= <-]; auto|].
  destruct (CodeAnalysisTool._run _ _ _) as [e|r]; simpl; [discriminate|].
  destruct (convert_issues _) as [e|issues]; simpl; [discriminate|].
  destruct issues as [|c cs]; intros [= <-]; [auto|].
  right. exists (c :: cs). auto.
Qed.

Lemma analyze_loop_reports pd fs : forall acc out,
  for_each (analyze_file pd) fs acc = inr out ->
  exists new,
    out = acc ++ new
    /\ sublist (map name new) (map filename (List.filter kept fs))
    /\ Forall (fun fa => fa_issues fa <> []) new.
Proof.
  induction fs as [|fi fs IH]; intros acc out; simpl.
  - intros [= <-]. exists []. rewrite app_nil_r. repeat constructor.
  - destruct (analyze_file pd acc fi) as [e|acc'] eqn:Hfi; simpl; [discriminate|].
    intros Hrest. destruct (IH _ _ Hrest) as (new & -> & Hsub & Hne).
    destruct (analyze_file_adds _ _ _ _ Hfi) as [->|(issues & -> & Hissues & Hkept)].
    + exists new. split; [reflexivity|]. split; [|exact Hne].
      destruct (kept fi); [apply sublist_cons|]; exact Hsub.
    + exists (MkFileAnalysis (filename fi) issues :: new).
      split; [rewrite <- app_assoc; reflexivity|].
      rewrite Hkept. simpl. split; [apply sublist_skip, Hsub|].
      constructor; [exact Hissues | exact Hne].
Qed.

(** The file reports come in the order of the changed files and at most
    one per entry of the file list; each is for a file that is not removed
    and that the filter accepts, and each has at least one issue. *)
Theorem analyze_fetched_reports (pd : pr_data) (r : AnalysisResults) :
  analyze_fetched pd = inr r ->
  sublist (map name (files r)) (map filename (List.filter kept (pd_files pd)))
  /\ Forall (fun fa => fa_issues fa <> []) (files r).
Proof.
  unfold analyze_fetched.
  destruct (for_each _ _ _) as [e|out] eqn:Hloop; simpl; [discriminate|].
  intros [= <-]. simpl.
  destruct (analyze_loop_reports _ _ _ _ Hloop) as (new & -> & H). exact H.
Qed.

Lemma analyze_fetched_reports_witness :
  sublist
    (map name
       [MkFileAnalysis "a.py"
          [MkCodeIssue STYLE 1 "Trailing whitespace" "Remove trailing whitespace" "low"]])
    (map filename (List.filter kept (pd_files Demo.pd_unlisted)))
  /\ Forall (fun fa => fa_issues fa <> [])
       [MkFileAnalysis "a.py"
          [MkCodeIssue STYLE 1 "Trailing whitespace" "Remove trailing whitespace" "low"]].
Proof.
  apply (analyze_fetched_reports Demo.pd_unlisted
           (MkResults
              [MkFileAnalysis "a.py"
                 [MkCodeIssue STYLE 1 "Trailing whitespace"
                    "Remove trailing whitespace" "low"]]
              (MkSummary 1 1 0 0 0 1))).
  vm_compute. reflexivity.
Defined.

End Reports.

(** ** The worker: every outcome of a run *)

Section WorkerMore.
Import Models GitHubPRTool Tasks.
Context {W Dump : Type}.
Variable github : option string -> service W.
Variable model_dump_json : AnalysisResults -> res string.
Variable model_dump : AnalysisResults -> res Dump.

Local Abbreviation run_task := (analyze_pr_task github model_dump_json model_dump).

Lemma completed_run_recorded (id repo : string) (pr : Z)
    (tok : option string) (s : worker W) (t : AnalysisTask) (n' : io W)
    (r : AnalysisResults) (j : string) (d : Dump) :
  db s !! id = Some t ->
  CodeReviewAgent.analyze_pr (github tok) repo pr (net s) = (n', inr r) ->
  model_dump_json r = inr j ->
  model_dump r = inr d ->
  db (fst (run_task id repo pr tok s)) !! id
  = Some (MkTask (task_id t) (repo_url t) (pr_number t) COMPLETED (Some j)
            (error_message t)).
Proof.
  intros Hdb Hrun Hjson Hdump.
  unfold analyze_pr_task, bind, query, try_except, update_record, update_state,
    on_net, lift, raise, ret.
  rewrite Hdb. simpl. rewrite Hrun. simpl. rewrite Hjson. simpl. rewrite Hdump.
  simpl. rewrite !lookup_alter_eq, Hdb. reflexivity.
Qed.

(** A run that goes through marks the record completed and stores the
    JSON text; the columns it does not assign, the error message among them,
    keep their values; the three progress states are given in order and the
    task returns the dumped result. *)
Theorem analyze_pr_task_completes (id repo : string) (pr : Z)
    (tok : option string) (s : worker W) (t : AnalysisTask) (n' : io W)
    (r : AnalysisResults) (j : string) (d : Dump) :
  db s !! id = Some t ->
  CodeReviewAgent.analyze_pr (github tok) repo pr (net s) = (n', inr r) ->
  model_dump_json r = inr j ->
  model_dump r = inr d ->
  exists s',
    run_task id repo pr tok s = (s', inr (TaskReturn id "completed" d))
    /\ db s' !! id
       = Some (MkTask (task_id t) (repo_url t) (pr_number t) COMPLETED (Some j)
                 (error_message t))
    /\ celery s'
       = celery s ++ [("PROGRESS", "Initializing agent...");
                      ("PROGRESS", "Fetching PR data...");
                      ("PROGRESS", "Finalizing results...")]
    /\ net s' = n'.
Proof.
  intros Hdb Hrun Hjson Hdump.
  unfold analyze_pr_task, bind, query, try_except, update_record, update_state,
    on_net, lift, raise, ret.
  rewrite Hdb. simpl. rewrite Hrun. simpl. rewrite Hjson. simpl. rewrite Hdump.
  eexists. split; [reflexivity|]. simpl.
  rewrite !lookup_alter_eq, Hdb. simpl.
  split; [reflexivity|]. split; [|reflexivity].
  rewrite <- !app_assoc. reflexivity.
Qed.

(** If the dump of the result for the return value raises, after the
    JSON text was stored, the handler marks the record failed and the stored
    results stay: the record ends failed with both a result and an error
    message. *)
Theorem analyze_pr_task_dump_raises (id repo : string) (pr : Z)
    (tok : option string) (s : worker W) (t : AnalysisTask) (n' : io W)
    (r : AnalysisResults) (j : string) (e : exn) :
  db s !! id = Some t ->
  CodeReviewAgent.analyze_pr (github tok) repo pr (net s) = (n', inr r) ->
  model_dump_json r = inr j ->
  model_dump r = inl e ->
  exists s',
    run_task id repo pr tok s = (s', inl e)
    /\ db s' !! id
       = Some (MkTask (task_id t) (repo_url t) (pr_number t) FAILED (Some j)
                 (Some (exn_str e))).
Proof.
  intros Hdb Hrun Hjson Hdump.
  unfold analyze_pr_task, bind, query, try_except, update_record, update_state,
    on_net, lift, raise, ret.
  rewrite Hdb. simpl. rewrite Hrun. simpl. rewrite Hjson. simpl. rewrite Hdump.
  eexists. split; [reflexivity|]. simpl.
  rewrite !lookup_alter_eq, Hdb. reflexivity.
Qed.

(** Whatever happens in a run, the record of the job is never left
    pending or processing: when the task returns the record is completed
    with a result stored, when it raises the record is failed with the text
    of the exception, and the id, the repository and the PR number of the
    record are never changed. *)
Theorem analyze_pr_task_terminal (id repo : string) (pr : Z)
    (tok : option string) (s : worker W) (t : AnalysisTask) :
  db s !! id = Some t ->
  exists t',
    db (fst (run_task id repo pr tok s)) !! id = Some t'
    /\ task_id t' = task_id t /\ repo_url t' = repo_url t
    /\ pr_number t' = pr_number t
    /\ match snd (run_task id repo pr tok s) with
       | inr _ => status t' = COMPLETED /\ is_Some (results t')
       | inl e => status t' = FAILED /\ error_message t' = Some (exn_str e)
       end.
Proof.
  intros Hdb.
  unfold analyze_pr_task, bind, query, try_except, update_record, update_state,
    on_net, lift, raise, ret.
  rewrite Hdb. simpl.
  destruct (CodeReviewAgent.analyze_pr (github tok) repo pr (net s)) as [n' [e|r]];
    simpl.
  { eexists. rewrite !lookup_alter_eq, Hdb. simpl. eauto 10. }
  destruct (model_dump_json r) as [e|j]; simpl.
  { eexists. rewrite !lookup_alter_eq, Hdb. simpl. eauto 10. }
  destruct (model_dump r) as [e|d]; simpl.
  { eexists. rewrite !lookup_alter_eq, Hdb. simpl. eauto 10. }
  eexists. rewrite !lookup_alter_eq, Hdb. simpl. eauto 10.
Qed.

Lemma run_task_db (id repo : string) (pr : Z) (tok : option string) (s : worker W) :
  exists f, db (fst (run_task id repo pr tok s))
            = match db s !! id with
              | Some _ => alter f id (db s)
              | None => db s
              end.
Proof.
  unfold analyze_pr_task, bind, query, try_except, update_record, update_state,
    on_net, lift, raise, ret.
  simpl.
  destruct (db s !! id) as [t|] eqn:Hdb; simpl.
  - destruct (CodeReviewAgent.analyze_pr (github tok) repo pr (net s)) as [n' [e|r]];
      simpl.
    { eexists. rewrite !alter_alter_eq. reflexivity. }
    destruct (model_dump_json r) as [e|j]; simpl.
    { eexists. rewrite !alter_alter_eq. reflexivity. }
    destruct (model_dump r) as [e|d]; simpl.
    { eexists. rewrite !alter_alter_eq. reflexivity. }
    eexists. rewrite !alter_alter_eq. reflexivity.
  - exists (fun t => t).
    destruct (CodeReviewAgent.analyze_pr (github tok) repo pr (net s)) as [n' [e|r]];
      simpl; [reflexivity|].
    destruct (model_dump_json r) as [e|j]; simpl; [reflexivity|].
    destruct (model_dump r) as [e|d]; reflexivity.
Qed.

(** A run touches the record of its own job only: the table keeps the
    same ids, the record of every other job is as it was, and when the job
    has no record the table is not written at all. *)
Theorem analyze_pr_task_frame (id repo : string) (pr : Z)
    (tok : option string) (s : worker W) :
  dom (db (fst (run_task id repo pr tok s))) = dom (db s)
  /\ (forall id', id' <> id ->
        db (fst (run_task id repo pr tok s)) !! id' = db s !! id')
  /\ (db s !! id = None -> db (fst (run_task id repo pr tok s)) = db s).
Proof.
  destruct (run_task_db id repo pr tok s) as [f ->].
  destruct (db s !! id) as [t|].
  - split; [apply dom_alter_L|]. split; [|discriminate].
    intros id' Hne. apply lookup_alter_ne. congruence.
  - auto.
Qed.

End WorkerMore.

Section WorkerExamples.
Import Models GitHubPRTool Tasks.

Lemma analyze_pr_task_completes_witness :
  exists s',
    analyze_pr_task (fun _ => Demo.svc_image) Demo.dump_json Demo.dump
      "job-1" Demo.repo 1 None Demo.worker_start
    = (s', inr (TaskReturn "job-1" "completed" tt))
    /\ db s' !! "job-1"
       = Some (MkTask (task_id Demo.job) (repo_url Demo.job) (pr_number Demo.job)
                 COMPLETED (Some "{}") (error_message Demo.job))
    /\ celery s'
       = celery Demo.worker_start
         ++ [("PROGRESS", "Initializing agent...");
             ("PROGRESS", "Fetching PR data...");
             ("PROGRESS", "Finalizing results...")]
    /\ net s'
       = Io tt [CallPrInfo; CallPrFiles; CallPrDiff; CallFileContent "image.png" true].
Proof.
  eapply (analyze_pr_task_completes (fun _ => Demo.svc_image) Demo.dump_json Demo.dump
            "job-1" Demo.repo 1 None Demo.worker_start Demo.job).
  - reflexivity.
  - vm_compute. reflexivity.
  - reflexivity.
  - reflexivity.
Defined.

Lemma analyze_pr_task_dump_raises_witness :
  exists s',
    analyze_pr_task (fun _ => Demo.svc_image) Demo.dump_json
      (fun _ => @inl exn unit Demo.status_error)
      "job-1" Demo.repo 1 None Demo.worker_start
    = (s', inl Demo.status_error)
    /\ db s' !! "job-1"
       = Some (MkTask (task_id Demo.job) (repo_url Demo.job) (pr_number Demo.job)
                 FAILED (Some "{}") (Some (exn_str Demo.status_error))).
Proof.
  eapply (analyze_pr_task_dump_raises (fun _ => Demo.svc_image) Demo.dump_json
            (fun _ => @inl exn unit Demo.status_error)
            "job-1" Demo.repo 1 None Demo.worker_start Demo.job).
  - reflexivity.
  - vm_compute. reflexivity.
  - reflexivity.
  - reflexivity.
Defined.

Lemma analyze_pr_task_terminal_witness :
  exists t',
    db (fst (analyze_pr_task (fun _ => Demo.svc_timeout) Demo.dump_json Demo.dump
               "job-1" Demo.repo 1 None Demo.worker_start)) !! "job-1" = Some t'
    /\ task_id t' = task_id Demo.job /\ repo_url t' = repo_url Demo.job
    /\ pr_number t' = pr_number Demo.job
    /\ match snd (analyze_pr_task (fun _ => Demo.svc_timeout) Demo.dump_json Demo.dump
                    "job-1" Demo.repo 1 None Demo.worker_start) with
       | inr _ => status t' = COMPLETED /\ is_Some (results t')
       | inl e => status t' = FAILED /\ error_message t' = Some (exn_str e)
       end.
Proof.
  apply (analyze_pr_task_terminal (fun _ => Demo.svc_timeout) Demo.dump_json Demo.dump
           "job-1" Demo.repo 1 None Demo.worker_start Demo.job).
  reflexivity.
Defined.

Lemma analyze_pr_task_frame_witness :
  db (fst (analyze_pr_task (fun _ => Demo.svc_timeout) Demo.dump_json Demo.dump
             "job-2" Demo.repo 1 None Demo.worker_start)) !! "job-1"
  = db Demo.worker_start !! "job-1"
  /\ db (fst (analyze_pr_task (fun _ => Demo.svc_timeout) Demo.dump_json Demo.dump
                "job-2" Demo.repo 1 None Demo.worker_start))
     = db Demo.worker_start.
Proof.
  split.
  - apply (proj1 (proj2 (analyze_pr_task_frame (fun _ => Demo.svc_timeout)
                           Demo.dump_json Demo.dump
                           "job-2" Demo.repo 1 None Demo.worker_start))).
    discriminate.
  - apply (proj2 (proj2 (analyze_pr_task_frame (fun _ => Demo.svc_timeout)
                           Demo.dump_json Demo.dump
                           "job-2" Demo.repo 1 None Demo.worker_start))).
    reflexivity.
Defined.

End WorkerExamples.

(** ** The repository URL *)

Section RepoUrlFacts.
Import PyStr RepoUrl.

Lemma contains_char_empty c : contains (String c EmptyString) EmptyString = false.
Proof. reflexivity. Qed.

Lemma split_two sep s :
  contains (String sep EmptyString) s = true ->
  exists a b rest, split sep s = a :: b :: rest.
Proof.
  induction s as [|x s IH]; [discriminate|].
  rewrite contains_char_cons. cbn [split]. rewrite (Ascii.eqb_sym x sep).
  destruct (Ascii.eqb sep x); simpl.
  - intros _. pose proof (split_length_pos sep s) as Hpos.
    destruct (split sep s) as [|h t]; [simpl in Hpos; lia | eauto].
  - intros H. destruct (IH H) as (a & b & rest & ->). eauto.
Qed.

Lemma split_parts_no_sep sep s :
  Forall (fun x => contains (String sep EmptyString) x = false) (split sep s).
Proof.
  induction s as [|x s IH]; [repeat constructor|].
  cbn [split]. destruct (Ascii.eqb x sep) eqn:E.
  - constructor; [reflexivity | exact IH].
  - destruct (split sep s) as [|h t]; [repeat constructor|].
    + rewrite contains_char_cons, Ascii.eqb_sym, E. reflexivity.
    + inversion IH as [|? ? Hh Ht]; subst. constructor; [|exact Ht].
      rewrite contains_char_cons, Ascii.eqb_sym, E. exact Hh.
Qed.

Lemma split_first_nonempty sep a s :
  Ascii.eqb a sep = false ->
  exists h t, split sep (String a s) = String a h :: t.
Proof.
  intros E. cbn [split]. rewrite E.
  destruct (split sep s) as [|h t]; eauto.
Qed.

Lemma lstrip_head c s :
  lstrip c s = EmptyString
  \/ exists a s', lstrip c s = String a s' /\ Ascii.eqb a c = false.
Proof.
  induction s as [|a s IH]; simpl; [auto|].
  destruct (Ascii.eqb a c) eqn:E; [exact IH | eauto].
Qed.

Lemma rstrip_head c a s :
  Ascii.eqb a c = false -> exists r, rstrip c (String a s) = String a r.
Proof.
  intros E. cbn [rstrip]. destruct (rstrip c s); [rewrite E|]; eauto.
Qed.

Lemma strip_head c s :
  strip c s = EmptyString
  \/ exists a s', strip c s = String a s' /\ Ascii.eqb a c = false.
Proof.
  unfold strip. destruct (lstrip_head c s) as [->|(a & s' & -> & E)]; [auto|].
  right. destruct (rstrip_head c a s' E) as [r ->]. eauto.
Qed.

Lemma remove_git_from_no_char c s : forall k,
  contains (String c EmptyString) s = false ->
  contains (String c EmptyString) (remove_git_from k s) = false.
Proof.
  induction s as [|a s IH]; intros k; [reflexivity|].
  rewrite contains_char_cons. intros H. apply orb_false_iff in H as [Ha Hs].
  cbn [remove_git_from]. destruct k as [|k]; [|apply IH, Hs].
  destruct (String.prefix ".git" (String a s)); [apply IH, Hs|].
  rewrite contains_char_cons, Ha. apply IH, Hs.
Qed.

Variable urlparse_path : string -> string.

(** The URL is refused, with a [ValueError] that quotes it, exactly when
    its path has no slash left once the slashes at its two ends are
    stripped: a path with an owner and no repository is refused. *)
Theorem parse_repo_url_raises_iff (repo_url : string) :
  contains "/" (strip "/" (urlparse_path repo_url)) = false
  <-> parse_repo_url urlparse_path repo_url
      = inl (Exn "ValueError" ("Invalid GitHub repository URL: " +:+ repo_url)).
Proof.
  unfold parse_repo_url. split.
  - intros H. rewrite (split_no_sep "/" _ H). reflexivity.
  - intros H.
    destruct (contains "/" (strip "/" (urlparse_path repo_url))) eqn:E; [|reflexivity].
    destruct (split_two "/" _ E) as (a & b & rest & Hs).
    rewrite Hs in H. discriminate.
Qed.

(** When the URL is accepted the owner is not empty, and neither the
    owner nor the repository contains a slash: what follows the second part
    of the path is dropped. *)
Theorem parse_repo_url_parts (repo_url owner repo : string) :
  parse_repo_url urlparse_path repo_url = inr (owner, repo) ->
  owner <> EmptyString
  /\ contains "/" owner = false
  /\ contains "/" repo = false.
Proof.
  unfold parse_repo_url.
  pose proof (split_parts_no_sep "/" (strip "/" (urlparse_path repo_url))) as Hparts.
  destruct (strip_head "/" (urlparse_path repo_url)) as [->|(a & s' & Hs & E)].
  - simpl. discriminate.
  - rewrite Hs in *. destruct (split_first_nonempty "/" a s' E) as (h & t & Hsplit).
    rewrite Hsplit in *. destruct t as [|repo0 t]; [discriminate|].
    intros [= <- <-].
    inversion Hparts as [|? ? Ho Ht]; subst.
    inversion Ht as [|? ? Hr _]; subst.
    split; [discriminate|]. split; [exact Ho|].
    apply remove_git_from_no_char, Hr.
Qed.

End RepoUrlFacts.

Section RepoUrlExamples.
Import PyStr RepoUrl.

Lemma parse_repo_url_raises_iff_witness :
  parse_repo_url simple_path "https://github.com/invalid"
  = inl (Exn "ValueError"
           ("Invalid GitHub repository URL: " +:+ "https://github.com/invalid")).
Proof.
  apply (proj1 (parse_repo_url_raises_iff simple_path "https://github.com/invalid")).
  vm_compute. reflexivity.
Defined.

Lemma parse_repo_url_parts_witness :
  "user" <> EmptyString
  /\ contains "/" "user" = false
  /\ contains "/" "repo" = false.
Proof.
  apply (parse_repo_url_parts simple_path "https://github.com/user/repo.git/").
  vm_compute. reflexivity.
Defined.

End RepoUrlExamples.

(** ** The retention sweep *)

Section CleanupFacts.
Import Models Tasks Cleanup.

Lemma swept_later t1 t2 d : t1 <= t2 -> swept t1 d = true -> swept t2 d = true.
Proof.
  unfold swept. intros Ht H. apply andb_true_iff in H as [Hold Hst].
  apply andb_true_iff. split; [|exact Hst].
  apply Z.ltb_lt in Hold. apply Z.ltb_lt. lia.
Qed.

(** The sweep keeps a row exactly when the job is still pending or
    processing, however old it is, or when the row was created within the
    last seven days; the other rows are deleted and nothing is added. *)
Theorem cleanup_old_tasks_keeps (utcnow : Z) (table : gmap string dated)
    (id : string) (d : dated) :
  fst (cleanup_old_tasks utcnow table) !! id = Some d
  <-> table !! id = Some d
      /\ (status (row d) = PENDING \/ status (row d) = PROCESSING
          \/ utcnow - seven_days <= created_at d).
Proof.
  unfold cleanup_old_tasks. simpl. rewrite map_lookup_filter_Some. simpl.
  unfold swept. split; intros [Hd H]; (split; [exact Hd|]).
  - apply andb_false_iff in H as [H|H].
    + apply Z.ltb_ge in H. auto.
    + destruct (status (row d)); auto; discriminate.
  - apply andb_false_iff.
    destruct H as [H|[H|H]]; [right; rewrite H; reflexivity
                             | right; rewrite H; reflexivity
                             | left; apply Z.ltb_ge; exact H].
Qed.

(** A sweep after an earlier sweep leaves the table that it would leave
    alone: nothing that the earlier one deleted would have been kept. *)
Theorem cleanup_old_tasks_later (t1 t2 : Z) (table : gmap string dated) :
  t1 <= t2 ->
  fst (cleanup_old_tasks t2 (fst (cleanup_old_tasks t1 table)))
  = fst (cleanup_old_tasks t2 table).
Proof.
  intros Ht. unfold cleanup_old_tasks. simpl.
  apply map_eq. intros id. apply option_eq. intros d.
  rewrite !map_lookup_filter_Some. simpl. split.
  - intros [[Hd _] H2]. auto.
  - intros [Hd H2]. split; [split; [exact Hd|] | exact H2].
    destruct (swept t1 d) eqn:E; [|reflexivity].
    rewrite (swept_later _ _ _ Ht E) in H2. discriminate.
Qed.

Lemma cleanup_old_tasks_keeps_witness :
  fst (cleanup_old_tasks Demo2.day8 Demo2.table) !! "job-2" = Some Demo2.old_pending.
Proof.
  apply (proj2 (cleanup_old_tasks_keeps Demo2.day8 Demo2.table "job-2"
                  Demo2.old_pending)).
  split; [reflexivity | left; reflexivity].
Defined.

Lemma cleanup_old_tasks_later_witness :
  fst (cleanup_old_tasks Demo2.day8 (fst (cleanup_old_tasks 0 Demo2.table)))
  = fst (cleanup_old_tasks Demo2.day8 Demo2.table).
Proof.
  apply (cleanup_old_tasks_later 0 Demo2.day8 Demo2.table).
  vm_compute. discriminate.
Defined.

End CleanupFacts.

(** ** The queries *)

Section QueryFacts.
Import PyStr Models GitHubPRTool Tasks Queries.
Variable async_result_of : string -> res async_result.
Variable loads : string -> res AnalysisResults.

(** For an id with no record both queries answer 404, and the status
    query leaves the table as it is. *)
Theorem queries_unknown_id (id : string) (table : gmap string AnalysisTask) :
  table !! id = None ->
  get_task_status async_result_of id table = (table, Status_404)
  /\ get_task_results loads id table = Results_404.
Proof.
  intros H. unfold get_task_status, get_task_results. rewrite H. auto.
Qed.

(** The status query is not read-only.  When the task backend shows a
    failure for a job whose record is not failed, the query itself marks the
    record failed, with the text of the backend information as error
    message; in every other case the record is left as it is.  The status in
    the response is always the one stored when the query returns, and no
    other record is touched. *)
Theorem get_task_status_record (id : string) (table : gmap string AnalysisTask)
    (t : AnalysisTask) :
  table !! id = Some t ->
  exists t' progress,
    get_task_status async_result_of id table
    = (<[id := t']> table, TaskStatusResponse id (status t') progress)
    /\ ((exists cr, async_result_of id = inr cr
                    /\ state cr = "FAILURE" /\ status t <> FAILED
                    /\ t' = MkTask (task_id t) (repo_url t) (pr_number t) FAILED
                              (results t) (Some (info_str cr)))
        \/ (t' = t
            /\ forall cr, async_result_of id = inr cr ->
                  state cr = "FAILURE" -> status t = FAILED)).
Proof.
  intros Ht. unfold get_task_status. rewrite Ht.
  destruct (async_result_of id) as [e|cr] eqn:Hcr.
  { exists t, None. rewrite (insert_id _ _ _ Ht). split; [reflexivity|].
    right. split; [reflexivity|]. intros cr0 [=]. }
  destruct (String.eqb (state cr) "PROGRESS") eqn:Hp.
  { apply String.eqb_eq in Hp.
    assert (forall cr0, inr cr = @inr exn _ cr0 -> state cr0 = "FAILURE" ->
              status t = FAILED) as Hno.
    { intros cr0 [= <-] Hf. rewrite Hp in Hf. discriminate. }
    destruct (info_status cr) as [e|p].
    - exists t, None. rewrite (insert_id _ _ _ Ht). auto.
    - exists t, (Some p). rewrite (insert_id _ _ _ Ht). auto. }
  destruct (String.eqb (state cr) "FAILURE") eqn:Hf.
  - apply String.eqb_eq in Hf.
    destruct (status t) eqn:Hst.
    1-3: eexists _, None; split; [reflexivity|]; left; exists cr;
      unfold set_error_message, set_status; simpl;
      repeat split; auto; rewrite Hst; discriminate.
    exists t, None. rewrite (insert_id _ _ _ Ht), Hst. split; [reflexivity|].
    right. auto.
  - apply String.eqb_neq in Hf.
    exists t, None. rewrite (insert_id _ _ _ Ht). split; [reflexivity|].
    right. split; [reflexivity|]. intros cr0 [= <-] H. contradiction.
Qed.

Context {W Dump : Type}.
Variable http_url : string -> option string.
Variable commit_ok : AnalysisTask -> bool.
Variable apply_async_ok : Main.queued -> bool.
Variable github : option string -> service W.
Variable model_dump_json : AnalysisResults -> res string.
Variable model_dump : AnalysisResults -> res Dump.

Local Abbreviation run_task := (analyze_pr_task github model_dump_json model_dump).

(** Submission, run and query, one after the other: once a submission
    is accepted the results query shows the job pending, with no result and
    no error; after a run that goes through it shows the job completed, with
    the result read back from the stored text and no error. *)
Theorem results_after_completed_run (uuid : string) (b : Main.body)
    (a a' : Main.app) (id : string) (st : TaskStatus) (msg : string)
    (repo : string) (pr : Z) (tok : option string) (s : worker W)
    (n' : io W) (r r' : AnalysisResults) (j : string) (d : Dump) :
  Main.analyze_pr http_url commit_ok apply_async_ok uuid b a
  = (a', Main.TaskResponse id st msg) ->
  db s = Main.app_db a' ->
  CodeReviewAgent.analyze_pr (github tok) repo pr (net s) = (n', inr r) ->
  model_dump_json r = inr j ->
  model_dump r = inr d ->
  j <> EmptyString ->
  loads j = inr r' ->
  get_task_results loads id (Main.app_db a') = TaskResultsResponse id PENDING None None
  /\ get_task_results loads id (db (fst (run_task id repo pr tok s)))
     = TaskResultsResponse id COMPLETED (Some r') None.
Proof.
  intros Hsubmit Hdb Hrun Hjson Hdump Hj Hloads.
  unfold Main.analyze_pr, Main.handler in Hsubmit.
  destruct (Main.validate http_url b) as [request|]; [|discriminate].
  destruct (Main.app_db a !! uuid); [discriminate|].
  destruct (commit_ok _); [|discriminate].
  destruct (apply_async_ok _); [|discriminate].
  injection Hsubmit as <- <- <- _. simpl in Hdb |- *.
  assert (db s !! uuid
          = Some (MkTask uuid (Main.req_repo_url request) (Main.req_pr_number request)
                    PENDING None None)) as Hrec
    by (rewrite Hdb; apply lookup_insert_eq).
  split.
  - unfold get_task_results. rewrite lookup_insert_eq. reflexivity.
  - unfold get_task_results.
    rewrite (completed_run_recorded github model_dump_json model_dump
               uuid repo pr tok s _ n' r j d Hrec Hrun Hjson Hdump).
    simpl. rewrite Hloads. destruct j; [congruence | reflexivity].
Qed.

(** After a run that raises in a mandatory fetch or in the JSON
    serialization, the results query shows the job failed, with the text of
    the exception and no result. *)
Theorem results_after_failed_run (uuid : string) (b : Main.body)
    (a a' : Main.app) (id : string) (st : TaskStatus) (msg : string)
    (repo : string) (pr : Z) (tok : option string) (s : worker W) (e : exn) :
  Main.analyze_pr http_url commit_ok apply_async_ok uuid b a
  = (a', Main.TaskResponse id st msg) ->
  db s = Main.app_db a' ->
  mandatory_fetch_raises (github tok) repo pr (world (net s)) e
  \/ serialization_raises model_dump_json (github tok) repo pr (net s) e ->
  get_task_results loads id (db (fst (run_task id repo pr tok s)))
  = TaskResultsResponse id FAILED None (Some (exn_str e)).
Proof.
  intros Hsubmit Hdb Hcase.
  unfold Main.analyze_pr, Main.handler in Hsubmit.
  destruct (Main.validate http_url b) as [request|]; [|discriminate].
  destruct (Main.app_db a !! uuid); [discriminate|].
  destruct (commit_ok _); [|discriminate].
  destruct (apply_async_ok _); [|discriminate].
  injection Hsubmit as <- <- <- _. simpl in Hdb.
  destruct (failed_run_recorded github model_dump_json model_dump uuid repo pr tok s
              (MkTask uuid (Main.req_repo_url request) (Main.req_pr_number request)
                 PENDING None None) e) as (s' & Hrun & Hrec).
  - rewrite Hdb. apply lookup_insert_eq.
  - destruct Hcase as [Hm | (n' & r & Hrun & Hjson)].
    + left. apply mandatory_fetch_raises_run, Hm.
    + right. eauto.
  - rewrite Hrun. simpl. unfold get_task_results. rewrite Hrec. reflexivity.
Qed.

End QueryFacts.

Section QueryExamples.
Import PyStr Models GitHubPRTool Tasks Queries.

Lemma queries_unknown_id_witness :
  get_task_status Demo2.lost_worker "job-9" (db Demo.worker_start)
  = (db Demo.worker_start, Status_404)
  /\ get_task_results Demo2.loads_empty "job-9" (db Demo.worker_start) = Results_404.
Proof.
  apply (queries_unknown_id Demo2.lost_worker Demo2.loads_empty "job-9"
           (db Demo.worker_start)).
  reflexivity.
Defined.

Lemma get_task_status_record_witness :
  exists t' progress,
    get_task_status Demo2.lost_worker "job-1" (db Demo.worker_start)
    = (<["job-1" := t']> (db Demo.worker_start),
       TaskStatusResponse "job-1" (status t') progress)
    /\ ((exists cr, Demo2.lost_worker "job-1" = inr cr
                    /\ state cr = "FAILURE" /\ status Demo.job <> FAILED
                    /\ t' = MkTask (task_id Demo.job) (repo_url Demo.job)
                              (pr_number Demo.job) FAILED (results Demo.job)
                              (Some (info_str cr)))
        \/ (t' = Demo.job
            /\ forall cr, Demo2.lost_worker "job-1" = inr cr ->
                  state cr = "FAILURE" -> status Demo.job = FAILED)).
Proof.
  apply (get_task_status_record Demo2.lost_worker "job-1" (db Demo.worker_start)
           Demo.job).
  reflexivity.
Defined.

Lemma results_after_completed_run_witness :
  get_task_results Demo2.loads_empty "job-1" (db Demo.worker_start)
  = TaskResultsResponse "job-1" PENDING None None
  /\ get_task_results Demo2.loads_empty "job-1"
       (db (fst (analyze_pr_task (fun _ => Demo.svc_image) Demo.dump_json Demo.dump
                   "job-1" Demo.repo 1 None Demo.worker_start)))
     = TaskResultsResponse "job-1" COMPLETED (Some Demo2.empty_results) None.
Proof.
  eapply (results_after_completed_run Demo2.loads_empty Main.scheme_only
            Main.sqlite_integer Main.broker_up
            (fun _ => Demo.svc_image) Demo.dump_json Demo.dump
            "job-1" (Main.Body Demo.repo 1 None) Demo.app_start
            (Main.App (db Demo.worker_start)
               [Main.Queued Demo.repo 1 None "job-1"])).
  - vm_compute. reflexivity.
  - reflexivity.
  - vm_compute. reflexivity.
  - reflexivity.
  - reflexivity.
  - discriminate.
  - reflexivity.
Defined.

Lemma results_after_failed_run_witness :
  get_task_results Demo2.loads_empty "job-1"
    (db (fst (analyze_pr_task (fun _ => Demo.svc_not_found) Demo.dump_json Demo.dump
                "job-1" Demo.repo 1 None Demo.worker_start)))
  = TaskResultsResponse "job-1" FAILED None (Some (exn_str Demo.status_error)).
Proof.
  eapply (results_after_failed_run Demo2.loads_empty Main.scheme_only
            Main.sqlite_integer Main.broker_up
            (fun _ => Demo.svc_not_found) Demo.dump_json Demo.dump
            "job-1" (Main.Body Demo.repo 1 None) Demo.app_start
            (Main.App (db Demo.worker_start)
               [Main.Queued Demo.repo 1 None "job-1"])).
  - vm_compute. reflexivity.
  - reflexivity.
  - left. eapply diff_raises; reflexivity.
Defined.

End QueryExamples.

(** ** The summary of a review *)

Section SummaryMore.
Import PyStr Models GitHubPRTool CodeReviewAgent ReviewFacts.

Ltac case_ifs' :=
  repeat match goal with
         | |- context [if ?b then _ else _] => destruct b
         end.

Lemma check_line_rule line n ext :
  Forall (fun i => rule_issue i = true) (CodeAnalysisTool.check_line line n ext).
Proof.
  unfold CodeAnalysisTool.check_line. repeat apply Forall_app_2.
  - unfold CodeAnalysisTool._check_style_issues. case_ifs'; simpl; repeat constructor.
  - unfold CodeAnalysisTool._check_potential_bugs. case_ifs'; simpl; repeat constructor.
  - unfold CodeAnalysisTool._check_performance_issues. case_ifs'; simpl; repeat constructor.
  - unfold CodeAnalysisTool._check_best_practices. case_ifs'; simpl; repeat constructor.
Qed.

Lemma _run_rule content file cl r :
  CodeAnalysisTool._run content file cl = inr r ->
  Forall (fun i => rule_issue i = true) (CodeAnalysisTool.issues r).
Proof.
  unfold CodeAnalysisTool._run.
  destruct (for_each _ _ _) as [e|l] eqn:Hloop; simpl; [discriminate|].
  intros [= <-]. simpl.
  revert Hloop. apply for_each_inv with (Q := fun _ => True).
  - intros acc n acc' Hacc _. unfold CodeAnalysisTool.run_body.
    destruct (n <=? _); [|intros [= <-]; exact Hacc].
    destruct (py_index _ _) as [e|line]; simpl; [discriminate|].
    intros [= <-]. apply Forall_app_2; [exact Hacc | apply check_line_rule].
  - apply Forall_trivial.
  - constructor.
Qed.

Lemma to_CodeIssue_rule i c :
  rule_issue i = true -> to_CodeIssue i = inr c -> rule_code_issue c.
Proof.
  destruct i as [ty ln d sg sev]. unfold rule_issue, to_CodeIssue, rule_code_issue.
  simpl. intros H. apply andb_true_iff in H as [Hty Hsev].
  assert (sev <> "critical") as Hs.
  { repeat (apply orb_true_iff in Hsev as [Hsev|Hsev]);
      apply String.eqb_eq in Hsev; subst sev; discriminate. }
  repeat (apply orb_true_iff in Hty as [Hty|Hty]);
    apply String.eqb_eq in Hty; subst ty; simpl; intros [= <-]; simpl;
      (split; [discriminate | exact Hs]).
Qed.

Lemma convert_issues_rule l out :
  Forall (fun i => rule_issue i = true) l ->
  convert_issues l = inr out ->
  Forall rule_code_issue out.
Proof.
  intros Hl. unfold convert_issues.
  apply for_each_inv with (Q := fun i => rule_issue i = true); [|exact Hl|constructor].
  intros acc i acc' Hacc Hi.
  destruct (to_CodeIssue i) as [e|c] eqn:Hc; simpl; [discriminate|].
  intros [= <-]. apply Forall_app_2; [exact Hacc|].
  constructor; [|constructor]. eapply to_CodeIssue_rule; eassumption.
Qed.

Lemma analyze_fetched_rule pd r :
  analyze_fetched pd = inr r ->
  Forall (fun fa => Forall rule_code_issue (fa_issues fa)) (files r).
Proof.
  apply analyze_fetched_Forall. intros fi acc acc' Hrun.
  destruct (analyze_file_inv _ _ _ _ Hrun)
    as [->|(content & r0 & issues & -> & _ & _ & _ & Hr & Hc)]; [auto|].
  right. eexists. split; [reflexivity|]. simpl.
  eapply convert_issues_rule; [eapply _run_rule; exact Hr | exact Hc].
Qed.

Lemma count_critical_zero fas :
  Forall (fun fa => Forall rule_code_issue (fa_issues fa)) fas ->
  count_severity "critical" fas = 0.
Proof.
  induction 1 as [|fa fas Hfa _ IH]; [reflexivity|].
  rewrite count_severity_cons, IH, Z.add_0_r.
  unfold count_severity. simpl. rewrite app_nil_r.
  induction Hfa as [|c l [_ Hc] _ IHl]; [reflexivity|].
  simpl. apply String.eqb_neq in Hc. rewrite Hc. exact IHl.
Qed.

(** The review never reports a security issue or an issue of severity
    critical: no rule of the analyzer gives one, so the count of critical
    issues of every summary is 0. *)
Theorem analyze_fetched_no_critical (pd : pr_data) (r : AnalysisResults) :
  analyze_fetched pd = inr r ->
  critical_issues (summary r) = 0
  /\ Forall (fun fa => Forall rule_code_issue (fa_issues fa)) (files r).
Proof.
  intros Hr. pose proof (analyze_fetched_rule _ _ Hr) as Hrule.
  split; [|exact Hrule].
  unfold analyze_fetched in Hr.
  destruct (for_each _ _ _) as [e|fas]; simpl in Hr; [discriminate|].
  injection Hr as <-. simpl in *. apply count_critical_zero, Hrule.
Qed.

Lemma sum_lengths_ge fas :
  Forall (fun fa => fa_issues fa <> []) fas ->
  Z.of_nat (length fas)
  <= CodeReviewAgent.sum (map (fun fa => Z.of_nat (length (fa_issues fa))) fas).
Proof.
  induction 1 as [|fa fas Hfa _ IH]; [reflexivity|].
  cbn [map CodeReviewAgent.sum length]. rewrite Nat2Z.inj_succ.
  destruct (fa_issues fa) as [|c l]; [congruence|]. simpl length. lia.
Qed.

(** A summary never counts more files than issues, since a file with no
    issue gets no report; a summary with no issue is the one of an empty
    list of reports. *)
Theorem analyze_fetched_files_le_issues (pd : pr_data) (r : AnalysisResults) :
  analyze_fetched pd = inr r ->
  total_files (summary r) <= total_issues (summary r)
  /\ (total_issues (summary r) = 0 -> files r = []).
Proof.
  intros Hr. unfold analyze_fetched in Hr.
  destruct (for_each _ _ _) as [e|fas] eqn:Hloop; simpl in Hr; [discriminate|].
  injection Hr as <-. simpl.
  destruct (analyze_loop_reports _ _ _ _ Hloop) as (new & Hnew & _ & Hne).
  simpl in Hnew. subst new.
  pose proof (sum_lengths_ge _ Hne) as Hle. split; [exact Hle|].
  intros H0. destruct fas as [|fa fas]; [reflexivity|].
  simpl length in Hle. lia.
Qed.

Lemma analyze_fetched_no_critical_witness :
  critical_issues (MkSummary 1 1 0 0 0 1) = 0
  /\ Forall (fun fa => Forall rule_code_issue (fa_issues fa))
       [MkFileAnalysis "a.py"
          [MkCodeIssue STYLE 1 "Trailing whitespace" "Remove trailing whitespace" "low"]].
Proof.
  apply (analyze_fetched_no_critical Demo.pd_unlisted
           (MkResults
              [MkFileAnalysis "a.py"
                 [MkCodeIssue STYLE 1 "Trailing whitespace"
                    "Remove trailing whitespace" "low"]]
              (MkSummary 1 1 0 0 0 1))).
  vm_compute. reflexivity.
Defined.

Lemma analyze_fetched_files_le_issues_witness :
  total_files (MkSummary 1 1 0 0 0 1) <= total_issues (MkSummary 1 1 0 0 0 1)
  /\ (total_issues (MkSummary 1 1 0 0 0 1) = 0 ->
      [MkFileAnalysis "a.py"
         [MkCodeIssue STYLE 1 "Trailing whitespace" "Remove trailing whitespace" "low"]]
      = []).
Proof.
  apply (analyze_fetched_files_le_issues Demo.pd_unlisted
           (MkResults
              [MkFileAnalysis "a.py"
                 [MkCodeIssue STYLE 1 "Trailing whitespace"
                    "Remove trailing whitespace" "low"]]
              (MkSummary 1 1 0 0 0 1))).
  vm_compute. reflexivity.
Defined.

End SummaryMore.
